(** * Railway autoscaler: the control loop of [main.go]

    A shallow embedding of [main.go]: the configuration loader, the metric
    fetch, the hysteresis decision and the cooldown-gated actuation of the
    polling loop, with the properties of the specification stated about
    them.

    Go's [int] and [time.Duration] are 64-bit two's-complement integers:
    they are integers in [Z] with the wrap-around written out.  Go's
    [float64] is IEEE 754 binary64: it is [spec_float] with the operations
    of [SpecFloat] at precision 53 and maximal exponent 1024. *)

From Stdlib Require Import ZArith Bool List String Ascii Lia.
From Stdlib Require Import Floats.SpecFloat.
From stdpp Require Import base option gmap strings.

Import ListNotations.
Local Set Warnings "-register-all".
Local Open Scope string_scope.
Local Open Scope Z_scope.

(** ** Machine integers *)

Module Int64.

Definition min_int : Z := - 2 ^ 63.
Definition max_int : Z := 2 ^ 63 - 1.

(** The values of a Go [int] (and of an [int64]). *)
Definition in_range (z : Z) : Prop := min_int <= z <= max_int.

(** Two's-complement wrap-around of an arithmetic result. *)
Definition wrap (z : Z) : Z := (z + 2 ^ 63) mod 2 ^ 64 - 2 ^ 63.

Definition add (a b : Z) : Z := wrap (a + b).
Definition sub (a b : Z) : Z := wrap (a - b).
Definition mul (a b : Z) : Z := wrap (a * b).
Definition neg (a : Z) : Z := wrap (- a).

End Int64.

(** ** Floating point *)

Module Float64.

Definition prec : Z := 53.
Definition emax : Z := 1024.

Definition zero : spec_float := S754_zero false.

(** [float64(n)] for an integer [n]. *)
Definition of_int (n : Z) : spec_float := binary_normalize prec emax n 0 false.

Definition add (x y : spec_float) : spec_float := SFadd prec emax x y.
Definition div (x y : spec_float) : spec_float := SFdiv prec emax x y.

(** Go's [x < y] and [x > y]: false as soon as one side is a NaN. *)
Definition lt (x y : spec_float) : bool := SFltb x y.
Definition gt (x y : spec_float) : bool := SFltb y x.
Definition le (x y : spec_float) : bool := SFleb x y.

End Float64.

Abbreviation float64 := spec_float (only parsing).

(** ** Time

    [time.Time] is an instant counted in nanoseconds on an ideal clock and
    [time.Duration] is an [int64] count of nanoseconds.  The operations are
    the ones the [time] package documents: [Add] moves an instant, [Sub]
    returns the difference of two instants and saturates at the largest and
    smallest duration, [Since t] is [Now().Sub(t)]. *)

Module Time.

Definition Second : Z := 1000000000.
Definition Minute : Z := 60 * Second.

Definition minDuration : Z := Int64.min_int.
Definition maxDuration : Z := Int64.max_int.

Definition saturate (d : Z) : Z :=
  if d <? minDuration then minDuration
  else if maxDuration <? d then maxDuration
  else d.

Definition Add (t d : Z) : Z := t + d.
Definition Sub (t u : Z) : Z := saturate (t - u).

(** [time.Since(t)] when the clock reads [now]. *)
Definition Since (now t : Z) : Z := Sub now t.

End Time.

(** ** Data model *)

Inductive error : Type :=
| ErrSyntax                 (* strconv.ErrSyntax *)
| ErrRange                  (* strconv.ErrRange *)
| ErrNet (msg : string)     (* the HTTP round trip failed *)
| ErrJSON (msg : string)    (* the response body did not decode *)
| ErrClose (msg : string).  (* closing the response body failed *)

(** A Go [interface{}] holding a request variable or a decoded JSON value.
    [AnyRFC3339 t] stands for the string [t.Format(time.RFC3339)]. *)
Inductive any : Type :=
| AnyNil
| AnyBool (b : bool)
| AnyInt (n : Z)
| AnyFloat (f : float64)
| AnyString (s : string)
| AnyRFC3339 (t : Z)
| AnyList (l : list any)
| AnyMap (m : gmap string any).

Record gqlRequest := {
  Query : string;
  Variables : gmap string any
}.

Record metricPoint := { Cpu : float64 }.

Record instanceMetrics := { Metrics : list metricPoint }.

Record serviceData := {
  Instances : list instanceMetrics;
  Replicas : Z
}.

Record serviceResp := { Service : serviceData }.

Record gqlError := { Message : string }.

Record gqlResponse := {
  Data : serviceResp;
  Errors : list gqlError
}.

Record snapshot := {
  avgCPU : float64;
  replicas : Z
}.

Record config := {
  Token : string;
  ServiceID : string;
  High : float64;
  Low : float64;
  Min : Z;
  Max : Z;
  Cooldown : Z;
  Interval : Z
}.

(** Zero values: [var resp gqlResponse], [snapshot{}] and the nil map. *)
Definition zero_gqlResponse : gqlResponse :=
  {| Data := {| Service := {| Instances := []; Replicas := 0 |} |};
     Errors := [] |}.

Definition zero_snapshot : snapshot :=
  {| avgCPU := S754_zero false; replicas := 0 |}.

(** ** Decision logic *)

Definition decide (cpu : float64) (replicas : Z) (cfg : config) : Z :=
  if Float64.gt cpu (High cfg) && (replicas <? Max cfg) then
    Int64.add replicas 1
  else if Float64.lt cpu (Low cfg) && (Min cfg <? replicas) then
    Int64.sub replicas 1
  else
    replicas.

(** ** Effects

    What a run of the program does to the outside world is recorded as a
    trace of events; what the world answers (clock readings, the replies of
    the remote API) is passed in. *)

Inductive logarg : Type :=
| ArgErr (e : error)
| ArgErrs (es : list gqlError).

Inductive event : Type :=
| Post (url : string) (token : string) (req : gqlRequest)
| Printf (format : string) (arg : logarg)
| Sleep (d : Z).

(** A computation that returns a value and appends to the trace. *)
Definition M (A : Type) : Type := A * list event.

Definition ret {A} (a : A) : M A := (a, []).

Definition bind {A B} (m : M A) (k : A -> M B) : M B :=
  let '(a, t1) := m in
  let '(b, t2) := k a in
  (b, (t1 ++ t2)%list).

Definition emit (e : event) : M unit := (tt, [e]).

Notation "'do' x <- m ; k" := (bind m (fun x => k))
  (at level 10, x name, m at level 100, k at level 200, only parsing).
Notation "'exec' m ; k" := (bind m (fun _ => k))
  (at level 10, m at level 100, k at level 200, only parsing).

Definition value {A} (m : M A) : A := fst m.
Definition trace {A} (m : M A) : list event := snd m.

(** The reply of the remote to one [doGraphQL] call whose target has type
    [A]: either [http.DefaultClient.Do] fails, or a response arrives, and
    then [Decode] leaves a value in the target and may report an error, and
    closing the body may report an error. *)
Record response (A : Type) := {
  decoded : A;
  decode_err : option error;
  close_err : option error
}.
Arguments decoded {A} _.
Arguments decode_err {A} _.
Arguments close_err {A} _.

Inductive reply (A : Type) : Type :=
| DoFailed (e : error)
| Responded (r : response A).
Arguments DoFailed {A} e.
Arguments Responded {A} r.

Definition endpoint : string := "https://backboard.railway.com/graphql/v2".

(** [doGraphQL]: the request is built from constants and from values that
    always marshal, so that the errors of [json.Marshal] and
    [http.NewRequestWithContext], which the code discards, do not arise. *)
Definition doGraphQL {A} (query : string) (vars : gmap string any)
    (token : string) (into : A) (rp : reply A) : M (option error * A) :=
  exec emit (Post endpoint token {| Query := query; Variables := vars |}) ;
  match rp with
  | DoFailed err => ret (Some err, into)
  | Responded r =>
      exec match close_err r with
           | Some err => emit (Printf "close err: %v" (ArgErr err))
           | None => ret tt
           end ;
      ret (decode_err r, decoded r)
  end.

(** ** Metric snapshot *)

Definition quote : string := String (ascii_of_nat 34) EmptyString.

Definition fetch_query : string :=
  "query($id:String!,$from:Time!,$to:Time!){service(id:$id){replicas instances{metrics(from:$from,to:$to,interval:"
  ++ quote ++ "1m" ++ quote ++ "){cpuPercent}}}}".

(** The two nested [range] loops of [fetch], on the pair [(sum, count)]. *)
Definition add_point (acc : float64 * Z) (p : metricPoint) : float64 * Z :=
  (Float64.add (fst acc) (Cpu p), Int64.add (snd acc) 1).

Definition add_instance (acc : float64 * Z) (inst : instanceMetrics)
    : float64 * Z :=
  fold_left add_point (Metrics inst) acc.

Definition aggregate (insts : list instanceMetrics) : float64 * Z :=
  fold_left add_instance insts (Float64.zero, 0).

Definition fetch (cfg : config) (now : Z) (rp : reply gqlResponse)
    : M snapshot :=
  let from := AnyRFC3339 (Time.Add now (Int64.mul (-2) (Interval cfg))) in
  let to := AnyRFC3339 now in
  let variables : gmap string any :=
    <["id" := AnyString (ServiceID cfg)]>
      (<["from" := from]> (<["to" := to]> ∅)) in
  do r <- doGraphQL fetch_query variables (Token cfg) zero_gqlResponse rp ;
  let '(err, resp) := r in
  match err with
  | Some err =>
      exec emit (Printf "gql err: %v" (ArgErr err)) ;
      ret zero_snapshot
  | None =>
      if (0 <? Z.of_nat (length (Errors resp))) then
        exec emit (Printf "gql errs: %+v" (ArgErrs (Errors resp))) ;
        ret zero_snapshot
      else
        let '(sum, count) := aggregate (Instances (Service (Data resp))) in
        let avg :=
          if 0 <? count then Float64.div sum (Float64.of_int count)
          else Float64.zero in
        ret {| avgCPU := avg; replicas := Replicas (Service (Data resp)) |}
  end.

(** ** Actuation *)

Definition scale_mutation : string :=
  "mutation($id:String!,$count:Int!){serviceReplicaScale(input:{serviceId:$id,replicas:$count}){id}}".

Definition scale (cfg : config) (desired : Z) (rp : reply (gmap string any))
    : M (option error) :=
  let vars : gmap string any :=
    <["id" := AnyString (ServiceID cfg)]> (<["count" := AnyInt desired]> ∅) in
  do r <- doGraphQL scale_mutation vars (Token cfg) (∅ : gmap string any) rp ;
  ret (fst r).

(** The gated actuation of the loop body ([main], the [if] after [decide]):
    [now] is the clock read by [time.Since], [rp] the reply the remote gives
    if it is called, [done] the clock read by [time.Now] after a successful
    call.  The result is the new value of [lastScale]. *)
Definition maybeApply (cfg : config) (desired current lastScale : Z)
    (now : Z) (rp : reply (gmap string any)) (done : Z) : M Z :=
  if negb (desired =? current)
     && (Cooldown cfg <? Time.Since now lastScale) then
    do err <- scale cfg desired rp ;
    match err with
    | None => ret done
    | Some err =>
        exec emit (Printf "scale error: %v" (ArgErr err)) ;
        ret lastScale
    end
  else
    ret lastScale.

(** ** The polling loop *)

(** What the world answers during one iteration of the loop. *)
Record tick := {
  clock_fetch : Z;
  fetch_reply : reply gqlResponse;
  clock_gate : Z;
  scale_reply : reply (gmap string any);
  clock_done : Z
}.

Definition cycle (cfg : config) (lastScale : Z) (w : tick) : M Z :=
  do target <- fetch cfg (clock_fetch w) (fetch_reply w) ;
  let desired := decide (avgCPU target) (replicas target) cfg in
  do lastScale' <- maybeApply cfg desired (replicas target) lastScale
                     (clock_gate w) (scale_reply w) (clock_done w) ;
  exec emit (Sleep (Interval cfg)) ;
  ret lastScale'.

(** The first [length ws] iterations of the [for] loop of [main]. *)
Fixpoint loop (cfg : config) (lastScale : Z) (ws : list tick) : M Z :=
  match ws with
  | [] => ret lastScale
  | w :: ws' =>
      do lastScale' <- cycle cfg lastScale w ;
      loop cfg lastScale' ws'
  end.

(** ** Configuration *)

(** [strconv.Atoi], from Go's standard library (64-bit [int]), as its code
    runs: strings of 1 to 18 bytes take the fast path, every other string
    goes through [ParseInt(s, 10, 0)] and [ParseUint]. *)
Definition digit (c : ascii) : option Z :=
  let n := Z.of_N (N_of_ascii c) in
  if (48 <=? n) && (n <=? 57) then Some (n - 48) else None.

(** The loop of the fast path: [n = n*10 + int(ch)], a syntax error at the
    first byte that is not a digit. *)
Fixpoint digits (s : string) (acc : Z) : option Z :=
  match s with
  | EmptyString => Some acc
  | String c s' =>
      match digit c with
      | Some d => digits s' (Int64.add (Int64.mul acc 10) d)
      | None => None
      end
  end.

Definition maxUint64 : Z := 2 ^ 64 - 1.

(** The loop of [ParseUint] in base 10, byte by byte: a byte that is not a
    digit is a syntax error with value 0; digits that overflow 64 bits are a
    range error with value [maxUint64], returned at once, before the bytes
    that follow are looked at. *)
Fixpoint parseUint_digits (s : string) (n : Z) : Z * option error :=
  match s with
  | EmptyString => (n, None)
  | String c s' =>
      match digit c with
      | None => (0, Some ErrSyntax)
      | Some d =>
          if maxUint64 / 10 + 1 <=? n then (maxUint64, Some ErrRange)
          else
            let n10 := (n * 10) mod 2 ^ 64 in
            let n1 := (n10 + d) mod 2 ^ 64 in
            if (n1 <? n10) || (maxUint64 <? n1) then
              (maxUint64, Some ErrRange)
            else parseUint_digits s' n1
      end
  end.

Definition ParseUint (s : string) : Z * option error :=
  match s with
  | EmptyString => (0, Some ErrSyntax)
  | String _ _ => parseUint_digits s 0
  end.

(** [ParseInt(s, 10, 0)]: the sign, then [ParseUint], then the range of a
    signed 64-bit integer. *)
Definition ParseInt (s : string) : Z * option error :=
  match s with
  | EmptyString => (0, Some ErrSyntax)
  | String c rest =>
      let neg := Ascii.eqb c "-" in
      let body :=
        if Ascii.eqb c "+" then rest
        else if Ascii.eqb c "-" then rest
        else s in
      let '(un, err) := ParseUint body in
      match err with
      | Some ErrRange | None =>
          let cutoff := 2 ^ 63 in
          if negb neg && (cutoff <=? un) then (cutoff - 1, Some ErrRange)
          else if neg && (cutoff <? un) then (- cutoff, Some ErrRange)
          else
            let n := Int64.wrap un in
            (if neg then Int64.neg n else n, None)
      | Some err => (0, Some err)
      end
  end.

Definition Atoi (s : string) : Z * option error :=
  let sLen := Z.of_nat (String.length s) in
  if (0 <? sLen) && (sLen <? 19) then
    match s with
    | EmptyString => (0, Some ErrSyntax)
    | String c rest =>
        let signed := Ascii.eqb c "-" || Ascii.eqb c "+" in
        let body := if signed then rest else s in
        if signed && (Z.of_nat (String.length body) <? 1) then
          (0, Some ErrSyntax)
        else
          match digits body 0 with
          | None => (0, Some ErrSyntax)
          | Some n => (if Ascii.eqb c "-" then Int64.neg n else n, None)
          end
    end
  else ParseInt s.

(** [os.Getenv]: the value of the variable, empty when it is unset. *)
Definition Getenv (env : gmap string string) (key : string) : string :=
  default EmptyString (env !! key).

(** The result of start-up code that may call [log.Fatalf], which prints the
    message and exits the process. *)
Inductive startup (A : Type) : Type :=
| Loaded (a : A)
| Fatalf (format : string) (key : string).
Arguments Loaded {A} a.
Arguments Fatalf {A} format key.

(** How a run of [main] stands after the iterations it was given answers
    for: stopped by [log.Fatalf], or still polling with [lastScale]. *)
Inductive outcome : Type :=
| Exited (format : string) (key : string)
| Polling (lastScale : Z).

Section LoadConfig.

(** [strconv.ParseFloat(_, 64)] and [time.ParseDuration], from Go's
    standard library: each returns a value together with an error. *)
Variable ParseFloat : string -> float64 * option error.
Variable ParseDuration : string -> Z * option error.

Variable env : gmap string string.

Definition must (key : string) : startup string :=
  let v := Getenv env key in
  if String.eqb v EmptyString then Fatalf "missing env %s" key
  else Loaded v.

Definition parseF (k : string) (def : float64) : float64 :=
  let v := Getenv env k in
  if negb (String.eqb v EmptyString) then fst (ParseFloat v) else def.

Definition parseI (k : string) (def : Z) : Z :=
  let v := Getenv env k in
  if negb (String.eqb v EmptyString) then fst (Atoi v) else def.

Definition parseDur (k : string) (def : Z) : Z :=
  let v := Getenv env k in
  if negb (String.eqb v EmptyString) then fst (ParseDuration v) else def.

Definition loadConfig : startup config :=
  match must "RAILWAY_TOKEN" with
  | Fatalf format key => Fatalf format key
  | Loaded token =>
      match must "SERVICE_ID" with
      | Fatalf format key => Fatalf format key
      | Loaded serviceID =>
          Loaded {| Token := token;
                    ServiceID := serviceID;
                    High := parseF "CPU_HIGH" (Float64.of_int 75);
                    Low := parseF "CPU_LOW" (Float64.of_int 30);
                    Min := parseI "MIN_REPLICAS" 1;
                    Max := parseI "MAX_REPLICAS" 5;
                    Cooldown := parseDur "COOLDOWN" (Int64.mul 2 Time.Minute);
                    Interval :=
                      parseDur "POLL_INTERVAL" (Int64.mul 30 Time.Second) |}
      end
  end.

(** [main]: [start] is the clock read by [time.Now] before the loop. *)
Definition main (start : Z) (ws : list tick) : M outcome :=
  match loadConfig with
  | Fatalf format key => ret (Exited format key)
  | Loaded cfg =>
      let lastScale := Time.Add start (Int64.neg (Cooldown cfg)) in
      do lastScale' <- loop cfg lastScale ws ;
      ret (Polling lastScale')
  end.

End LoadConfig.

(** ** What the specification names *)

(** The invariant of a policy (section 3 of the specification):
    [lowThreshold < highThreshold] and [0 < minReplicas <= maxReplicas]. *)
Definition valid_policy (cfg : config) : Prop :=
  Float64.lt (Low cfg) (High cfg) = true /\ 0 < Min cfg <= Max cfg.

(** The remote replica-count mutation is a [Post] of [scale_mutation]. *)
Definition is_mutation (e : event) : bool :=
  match e with
  | Post _ _ req => String.eqb (Query req) scale_mutation
  | _ => false
  end.

Definition mutation_invoked (t : list event) : bool := existsb is_mutation t.

(** The metric samples of a response, across all instances. *)
Definition samples (resp : gqlResponse) : list metricPoint :=
  concat (map Metrics (Instances (Service (Data resp)))).

Definition is_sleep (e : event) : bool :=
  match e with
  | Sleep _ => true
  | _ => false
  end.

(** The number of completed iterations that a trace shows: each iteration
    ends with its [time.Sleep]. *)
Definition sleeps (t : list event) : nat := length (List.filter is_sleep t).

(** The ways the metric fetch can fail: the round trip fails, the body does
    not decode, or the decoded payload reports errors. *)
Inductive fetch_failure : reply gqlResponse -> Prop :=
| CommunicationFailure (e : error) :
    fetch_failure (DoFailed e)
| DecodingFailure (r : response gqlResponse) (e : error) :
    decode_err r = Some e -> fetch_failure (Responded r)
| RemoteError (r : response gqlResponse) :
    decode_err r = None -> Errors (decoded r) <> [] ->
    fetch_failure (Responded r).

(** An instance of the policy with the documented defaults. *)
Definition default_config : config :=
  {| Token := "token";
     ServiceID := "service";
     High := Float64.of_int 75;
     Low := Float64.of_int 30;
     Min := 1;
     Max := 5;
     Cooldown := Int64.mul 2 Time.Minute;
     Interval := Int64.mul 30 Time.Second |}.

(** A healthy reply of the metric query: one instance, one sample [cpu],
    and [n] replicas. *)
Definition healthy_reply (cpu : float64) (n : Z) : reply gqlResponse :=
  Responded
    {| decoded :=
         {| Data := {| Service :=
                         {| Instances := [ {| Metrics := [ {| Cpu := cpu |} ] |} ];
                            Replicas := n |} |};
            Errors := [] |};
       decode_err := None;
       close_err := None |}.

(** An iteration that sees 80% CPU on 2 replicas, long after the last
    scaling, and whose mutation fails on the network. *)
Definition failing_tick : tick :=
  {| clock_fetch := 1000 * Time.Second;
     fetch_reply := healthy_reply (Float64.of_int 80) 2;
     clock_gate := 1001 * Time.Second;
     scale_reply := DoFailed (ErrNet "connection reset");
     clock_done := 1002 * Time.Second |}.

(** Environments for the examples.  They leave the float and duration
    variables unset, so that [loadConfig] calls neither [ParseFloat] nor
    [ParseDuration] and any function can stand for them. *)
Definition unused_ParseFloat (s : string) : float64 * option error :=
  (S754_zero false, Some ErrSyntax).

Definition unused_ParseDuration (s : string) : Z * option error :=
  (0, Some ErrSyntax).

Definition minimal_env : gmap string string :=
  <["RAILWAY_TOKEN" := "token"]> (<["SERVICE_ID" := "service"]> ∅).

Definition unparseable_env : gmap string string :=
  <["MIN_REPLICAS" := "abc"]> minimal_env.

(** A successful reply of the metric query with no instance, hence no
    sample, for a service that runs 3 replicas. *)
Definition idle_response : response gqlResponse :=
  {| decoded :=
       {| Data := {| Service := {| Instances := []; Replicas := 3 |} |};
          Errors := [] |};
     decode_err := None;
     close_err := None |}.

(** A decodable reply of the mutation in which the remote reports an error. *)
Definition rejected_response : response (gmap string any) :=
  {| decoded :=
       <["errors" :=
           AnyList [AnyMap (<["message" := AnyString "Not Authorized"]> ∅)]]>
         (<["data" := AnyNil]> ∅);
     decode_err := None;
     close_err := None |}.

(** ** What the further properties name *)

Definition is_post (e : event) : bool :=
  match e with
  | Post _ _ _ => true
  | _ => false
  end.

(** The metric query is a [Post] of [fetch_query]. *)
Definition is_query (e : event) : bool :=
  match e with
  | Post _ _ req => String.eqb (Query req) fetch_query
  | _ => false
  end.

(** How many metric queries and how many mutations a trace shows. *)
Definition queries (t : list event) : nat := length (List.filter is_query t).
Definition mutations (t : list event) : nat :=
  length (List.filter is_mutation t).

(** The [count] variable of a mutation, and the counts that the mutations of
    a trace ask for, in order. *)
Definition requested_count (e : event) : option any :=
  match e with
  | Post _ _ req =>
      if String.eqb (Query req) scale_mutation then Variables req !! "count"
      else None
  | _ => None
  end.

Definition requested_counts (t : list event) : list any :=
  omap requested_count t.

(** The two warnings that [fetch] logs. *)
Definition is_fetch_warning (e : event) : bool :=
  match e with
  | Printf format _ =>
      String.eqb format "gql err: %v" || String.eqb format "gql errs: %+v"
  | _ => false
  end.

(** The unweighted mean of a list of samples, 0 for no sample. *)
Definition mean (xs : list float64) : float64 :=
  match xs with
  | [] => Float64.zero
  | _ :: _ =>
      Float64.div (fold_left Float64.add xs Float64.zero)
        (Float64.of_int (Z.of_nat (length xs)))
  end.

(** A tick whose fetch fails, long after start-up, for a remote that would
    accept the mutation. *)
Definition blind_tick : tick :=
  {| clock_fetch := 1000 * Time.Second;
     fetch_reply := DoFailed (ErrNet "no route to host");
     clock_gate := 1001 * Time.Second;
     scale_reply :=
       Responded {| decoded := ∅; decode_err := None; close_err := None |};
     clock_done := 1002 * Time.Second |}.

(** An iteration that starts at [t0], sees 80% CPU on 2 replicas, and whose
    mutation the remote accepts. *)
Definition scaling_tick (t0 : Z) : tick :=
  {| clock_fetch := t0;
     fetch_reply := healthy_reply (Float64.of_int 80) 2;
     clock_gate := t0 + Time.Second;
     scale_reply :=
       Responded {| decoded := ∅; decode_err := None; close_err := None |};
     clock_done := t0 + 2 * Time.Second |}.

(** The environment variables that [loadConfig] reads. *)
Definition config_keys : list string :=
  [ "RAILWAY_TOKEN"; "SERVICE_ID"; "CPU_HIGH"; "CPU_LOW";
    "MIN_REPLICAS"; "MAX_REPLICAS"; "COOLDOWN"; "POLL_INTERVAL" ].

(** * Properties *)

(** ** Machine integers, floats and time *)

Ltac int64_range :=
  unfold Int64.in_range, Int64.min_int, Int64.max_int in *; lia.

Lemma wrap_in_range z : Int64.in_range (Int64.wrap z).
Proof.
  unfold Int64.in_range, Int64.wrap, Int64.min_int, Int64.max_int.
  pose proof (Z.mod_pos_bound (z + 2 ^ 63) (2 ^ 64) ltac:(lia)). lia.
Qed.

Lemma wrap_id z : Int64.in_range z -> Int64.wrap z = z.
Proof.
  unfold Int64.in_range, Int64.wrap, Int64.min_int, Int64.max_int. intros H.
  rewrite Z.mod_small by lia. lia.
Qed.

(** An increment guarded by [replicas < max] does not overflow. *)
Lemma add_one_below (replicas max : Z) :
  Int64.in_range replicas -> Int64.in_range max -> replicas < max ->
  Int64.add replicas 1 = replicas + 1.
Proof. intros Hr Hm Hlt. apply wrap_id. int64_range. Qed.

(** A decrement guarded by [replicas > min] does not overflow. *)
Lemma sub_one_above (replicas min : Z) :
  Int64.in_range replicas -> Int64.in_range min -> min < replicas ->
  Int64.sub replicas 1 = replicas - 1.
Proof. intros Hr Hm Hlt. apply wrap_id. int64_range. Qed.

(** Swapping the operands of a comparison swaps its outcome. *)
Lemma compare_swap (x y : float64) :
  SFcompare y x = option_map CompOpp (SFcompare x y).
Proof.
  destruct x as [sx | sx | | sx mx ex], y as [sy | sy | | sy my ey];
    simpl; try reflexivity;
    try (destruct sx; reflexivity);
    try (destruct sy; reflexivity);
    try (destruct sx, sy; reflexivity).
  f_equal.
  change (Pos.compare_cont Eq my mx) with (Pos.compare my mx).
  change (Pos.compare_cont Eq mx my) with (Pos.compare mx my).
  rewrite (Z.compare_antisym ex ey), (Pos.compare_antisym mx my).
  destruct sx, sy; simpl; try reflexivity;
    destruct (ex ?= ey); simpl; try reflexivity;
    destruct (mx ?= my)%positive; reflexivity.
Qed.

(** [x <= y] excludes [x > y]. *)
Lemma le_not_gt (x y : float64) :
  Float64.le x y = true -> Float64.gt x y = false.
Proof.
  unfold Float64.le, Float64.gt, SFleb, SFltb. rewrite (compare_swap x y).
  destruct (SFcompare x y) as [[ | | ] | ]; simpl; congruence.
Qed.

(** [x <= y] excludes [y < x]. *)
Lemma le_not_lt (x y : float64) :
  Float64.le x y = true -> Float64.lt y x = false.
Proof. apply le_not_gt. Qed.

Lemma saturate_spec d :
  Time.saturate d = Z.max Time.minDuration (Z.min Time.maxDuration d).
Proof.
  unfold Time.saturate, Time.minDuration, Time.maxDuration,
    Int64.min_int, Int64.max_int.
  destruct (Z.ltb_spec d (- 2 ^ 63)); [lia |].
  destruct (Z.ltb_spec (2 ^ 63 - 1) d); lia.
Qed.

(** ** The decision function *)

(** C1: [decide] returns [replicas + 1] when [cpu > High] and
    [replicas < Max]; otherwise [replicas - 1] when [cpu < Low] and
    [replicas > Min]; otherwise [replicas]; the branches are tried in that
    order, and no branch wraps around. *)
Theorem decide_priority (cpu : float64) (replicas : Z) (cfg : config) :
  Int64.in_range replicas ->
  Int64.in_range (Min cfg) ->
  Int64.in_range (Max cfg) ->
  let up := Float64.gt cpu (High cfg) = true /\ replicas < Max cfg in
  let down := Float64.lt cpu (Low cfg) = true /\ replicas > Min cfg in
  (up -> decide cpu replicas cfg = replicas + 1) /\
  (~ up -> down -> decide cpu replicas cfg = replicas - 1) /\
  (~ up -> ~ down -> decide cpu replicas cfg = replicas).
Proof.
  intros Hr Hmin Hmax up down. unfold up, down, decide.
  destruct (Float64.gt cpu (High cfg)) eqn:Hgt;
    destruct (Z.ltb_spec replicas (Max cfg)) as [Hlt | Hge];
    destruct (Float64.lt cpu (Low cfg)) eqn:Hlow;
    destruct (Z.ltb_spec (Min cfg) replicas) as [Hlt' | Hge'];
    cbn [andb];
    repeat split; intros;
    try rewrite (add_one_below replicas (Max cfg)) by assumption;
    try rewrite (sub_one_above replicas (Min cfg)) by assumption;
    try reflexivity;
    try (exfalso; intuition (congruence || lia)).
Qed.

Lemma decide_priority_witness :
  decide (Float64.of_int 80) 2 default_config = 3.
Proof.
  refine (proj1 (decide_priority (Float64.of_int 80) 2 default_config
                   _ _ _) _).
  - int64_range.
  - simpl. int64_range.
  - simpl. int64_range.
  - split; [vm_compute; reflexivity | simpl; lia].
Defined.

(** C4: for every utilization and every replica count inside
    [[Min, Max]], the result of [decide] is inside [[Min, Max]]. *)
Theorem decide_within_band (cpu : float64) (replicas : Z) (cfg : config) :
  Int64.in_range (Min cfg) ->
  Int64.in_range (Max cfg) ->
  Min cfg <= replicas <= Max cfg ->
  Min cfg <= decide cpu replicas cfg <= Max cfg.
Proof.
  intros Hmin Hmax Hband.
  assert (Hr : Int64.in_range replicas) by int64_range.
  unfold decide.
  destruct (Float64.gt cpu (High cfg) && (replicas <? Max cfg)) eqn:Hup.
  - apply andb_true_iff in Hup as [_ Hlt]. apply Z.ltb_lt in Hlt.
    rewrite (add_one_below replicas (Max cfg)) by assumption. lia.
  - destruct (Float64.lt cpu (Low cfg) && (Min cfg <? replicas)) eqn:Hdown.
    + apply andb_true_iff in Hdown as [_ Hlt]. apply Z.ltb_lt in Hlt.
      rewrite (sub_one_above replicas (Min cfg)) by assumption. lia.
    + exact Hband.
Qed.

Lemma decide_within_band_witness :
  1 <= decide (Float64.of_int 80) 5 default_config <= 5.
Proof.
  apply (decide_within_band (Float64.of_int 80) 5 default_config);
    simpl; int64_range.
Defined.

(** C8: inside the deadband, [Low <= cpu <= High], [decide] returns the
    replica count unchanged, whatever the count and the policy. *)
Theorem decide_deadband (cpu : float64) (replicas : Z) (cfg : config) :
  Float64.le (Low cfg) cpu = true ->
  Float64.le cpu (High cfg) = true ->
  decide cpu replicas cfg = replicas.
Proof.
  intros Hlow Hhigh. unfold decide.
  rewrite (le_not_gt cpu (High cfg) Hhigh).
  rewrite (le_not_lt (Low cfg) cpu Hlow).
  reflexivity.
Qed.

Lemma decide_deadband_witness :
  decide (Float64.of_int 50) 2 default_config = 2.
Proof.
  apply (decide_deadband (Float64.of_int 50) 2 default_config);
    vm_compute; reflexivity.
Defined.

(** ** Traces of the loop body *)

Lemma bind_value {A B} (m : M A) (k : A -> M B) :
  value (bind m k) = value (k (value m)).
Proof.
  unfold value, bind. destruct m as [a t1]. simpl.
  destruct (k a) as [b t2]. reflexivity.
Qed.

Lemma bind_trace {A B} (m : M A) (k : A -> M B) :
  trace (bind m k) = (trace m ++ trace (k (value m)))%list.
Proof.
  unfold value, trace, bind. destruct m as [a t1]. simpl.
  destruct (k a) as [b t2]. reflexivity.
Qed.

Lemma mutation_invoked_app (t1 t2 : list event) :
  mutation_invoked (t1 ++ t2) = mutation_invoked t1 || mutation_invoked t2.
Proof. apply existsb_app. Qed.

Lemma sleeps_app (t1 t2 : list event) :
  sleeps (t1 ++ t2) = (sleeps t1 + sleeps t2)%nat.
Proof. unfold sleeps. rewrite List.filter_app. apply length_app. Qed.

(** [doGraphQL] posts its query once and never sleeps. *)
Lemma doGraphQL_trace {A} query vars token (into : A) (rp : reply A) :
  exists logs,
    trace (doGraphQL query vars token into rp)
    = Post endpoint token {| Query := query; Variables := vars |} :: logs
    /\ mutation_invoked logs = false /\ sleeps logs = 0%nat.
Proof.
  destruct rp as [e | [d de [ce | ]]]; eexists; (split; [reflexivity |]);
    split; reflexivity.
Qed.

Lemma doGraphQL_value {A} query vars token (into : A) (rp : reply A) :
  value (doGraphQL query vars token into rp)
  = match rp with
    | DoFailed e => (Some e, into)
    | Responded r => (decode_err r, decoded r)
    end.
Proof. destruct rp as [e | [d de [ce | ]]]; reflexivity. Qed.

Lemma fetch_query_not_mutation : String.eqb fetch_query scale_mutation = false.
Proof. vm_compute. reflexivity. Qed.

Lemma fetch_trace (cfg : config) (now : Z) (rp : reply gqlResponse) :
  mutation_invoked (trace (fetch cfg now rp)) = false
  /\ sleeps (trace (fetch cfg now rp)) = 0%nat.
Proof.
  unfold fetch. rewrite bind_trace.
  set (vars := <["id":=_]> _).
  destruct (doGraphQL_trace fetch_query vars (Token cfg) zero_gqlResponse rp)
    as (logs & -> & Hm & Hs).
  rewrite doGraphQL_value.
  rewrite mutation_invoked_app, sleeps_app.
  assert (Hpost : forall logs', mutation_invoked logs' = false ->
            mutation_invoked
              (Post endpoint (Token cfg)
                 {| Query := fetch_query; Variables := vars |} :: logs')
            = false).
  { intros logs' H. unfold mutation_invoked in *. cbn [existsb is_mutation Query].
    rewrite fetch_query_not_mutation, H. reflexivity. }
  rewrite (Hpost logs Hm).
  change (sleeps (Post endpoint (Token cfg)
                    {| Query := fetch_query; Variables := vars |} :: logs))
    with (sleeps logs). rewrite Hs.
  destruct rp as [e | [d [de | ] ce]]; cbn [decode_err decoded];
    try (split; reflexivity).
  destruct (0 <? Z.of_nat (length (Errors d))); [split; reflexivity |].
  destruct (aggregate _) as [sum count]. split; reflexivity.
Qed.

Lemma scale_value (cfg : config) (desired : Z) (rp : reply (gmap string any)) :
  value (scale cfg desired rp)
  = match rp with
    | DoFailed e => Some e
    | Responded r => decode_err r
    end.
Proof.
  unfold scale. rewrite bind_value, doGraphQL_value.
  destruct rp; reflexivity.
Qed.

Lemma scale_trace (cfg : config) (desired : Z) (rp : reply (gmap string any)) :
  mutation_invoked (trace (scale cfg desired rp)) = true
  /\ sleeps (trace (scale cfg desired rp)) = 0%nat.
Proof.
  unfold scale. rewrite bind_trace.
  set (vars := <["id":=_]> _).
  destruct (doGraphQL_trace scale_mutation vars (Token cfg)
              (∅ : gmap string any) rp) as (logs & -> & Hm & Hs).
  rewrite sleeps_app, mutation_invoked_app.
  split.
  - unfold mutation_invoked at 1. cbn [existsb is_mutation Query].
    rewrite String.eqb_refl. reflexivity.
  - change (sleeps (Post endpoint (Token cfg)
                      {| Query := scale_mutation; Variables := vars |} :: logs))
      with (sleeps logs). rewrite Hs. reflexivity.
Qed.

(** The condition of the [if] in the loop body. *)
Lemma maybeApply_closed cfg desired current lastScale now rp done :
  negb (desired =? current) && (Cooldown cfg <? Time.Since now lastScale)
  = false ->
  maybeApply cfg desired current lastScale now rp done = ret lastScale.
Proof. intros H. unfold maybeApply. rewrite H. reflexivity. Qed.

Lemma maybeApply_open cfg desired current lastScale now rp done :
  negb (desired =? current) && (Cooldown cfg <? Time.Since now lastScale)
  = true ->
  mutation_invoked (trace (maybeApply cfg desired current lastScale now rp done))
  = true
  /\ sleeps (trace (maybeApply cfg desired current lastScale now rp done))
     = 0%nat
  /\ value (maybeApply cfg desired current lastScale now rp done)
     = match value (scale cfg desired rp) with
       | None => done
       | Some _ => lastScale
       end.
Proof.
  intros H. unfold maybeApply. rewrite H.
  rewrite bind_trace, bind_value, mutation_invoked_app, sleeps_app.
  destruct (scale_trace cfg desired rp) as [-> ->].
  destruct (value (scale cfg desired rp)); repeat split; reflexivity.
Qed.

Lemma maybeApply_sleeps cfg desired current lastScale now rp done :
  sleeps (trace (maybeApply cfg desired current lastScale now rp done)) = 0%nat.
Proof.
  destruct (negb (desired =? current)
            && (Cooldown cfg <? Time.Since now lastScale)) eqn:Hgate.
  - apply (maybeApply_open cfg desired current lastScale now rp done Hgate).
  - rewrite (maybeApply_closed _ _ _ _ _ rp done Hgate). reflexivity.
Qed.

Lemma cycle_value (cfg : config) (lastScale : Z) (w : tick) :
  let target := value (fetch cfg (clock_fetch w) (fetch_reply w)) in
  value (cycle cfg lastScale w)
  = value (maybeApply cfg (decide (avgCPU target) (replicas target) cfg)
             (replicas target) lastScale
             (clock_gate w) (scale_reply w) (clock_done w)).
Proof.
  intros target. unfold cycle.
  rewrite bind_value. fold target. cbv zeta.
  rewrite bind_value, bind_value. reflexivity.
Qed.

Lemma cycle_trace (cfg : config) (lastScale : Z) (w : tick) :
  let target := value (fetch cfg (clock_fetch w) (fetch_reply w)) in
  trace (cycle cfg lastScale w)
  = (trace (fetch cfg (clock_fetch w) (fetch_reply w))
     ++ trace (maybeApply cfg (decide (avgCPU target) (replicas target) cfg)
                 (replicas target) lastScale
                 (clock_gate w) (scale_reply w) (clock_done w))
     ++ [Sleep (Interval cfg)])%list.
Proof.
  intros target. unfold cycle.
  rewrite bind_trace. fold target. cbv zeta.
  rewrite bind_trace, bind_trace. reflexivity.
Qed.

(** Every iteration reaches its [time.Sleep]. *)
Lemma cycle_sleeps (cfg : config) (lastScale : Z) (w : tick) :
  sleeps (trace (cycle cfg lastScale w)) = 1%nat.
Proof.
  rewrite cycle_trace. cbv zeta. rewrite !sleeps_app.
  rewrite (proj2 (fetch_trace cfg _ _)), maybeApply_sleeps. reflexivity.
Qed.

(** The loop runs every iteration it is given answers for: nothing in an
    iteration stops it. *)
Lemma loop_sleeps (cfg : config) (ws : list tick) :
  forall lastScale, sleeps (trace (loop cfg lastScale ws)) = length ws.
Proof.
  induction ws as [| w ws IH]; intros lastScale; [reflexivity |].
  cbn [loop]. rewrite bind_trace, sleeps_app, cycle_sleeps, IH. reflexivity.
Qed.

(** In an iteration, only the actuation step can call the mutation. *)
Lemma cycle_mutation_invoked (cfg : config) (lastScale : Z) (w : tick) :
  let target := value (fetch cfg (clock_fetch w) (fetch_reply w)) in
  mutation_invoked (trace (cycle cfg lastScale w))
  = mutation_invoked
      (trace (maybeApply cfg (decide (avgCPU target) (replicas target) cfg)
                (replicas target) lastScale
                (clock_gate w) (scale_reply w) (clock_done w))).
Proof.
  intros target. rewrite cycle_trace. fold target. cbv zeta.
  rewrite !mutation_invoked_app, (proj1 (fetch_trace cfg _ _)).
  cbn [orb]. apply orb_false_r.
Qed.

(** ** The cooldown gate *)

(** C2: with [lastScale = t0] and a desired count different from the current
    one, the actuation step at [t0 + Cooldown - 1s] does not call the
    mutation and keeps the timestamp; at [t0 + Cooldown + 1s] it calls the
    mutation.  The cooldown is a duration below the largest one, at which
    [time.Since] saturates. *)
Theorem cooldown_gate (cfg : config) (desired current t0 : Z)
    (rp : reply (gmap string any)) (done : Z) :
  Int64.in_range (Cooldown cfg) ->
  Cooldown cfg < Time.maxDuration ->
  desired <> current ->
  let early := maybeApply cfg desired current t0
                 (t0 + Cooldown cfg - Time.Second) rp done in
  let late := maybeApply cfg desired current t0
                (t0 + Cooldown cfg + Time.Second) rp done in
  mutation_invoked (trace early) = false /\
  value early = t0 /\
  mutation_invoked (trace late) = true.
Proof.
  intros Hrange Hmax Hne early late.
  assert (Hd : negb (desired =? current) = true).
  { apply negb_true_iff, Z.eqb_neq, Hne. }
  assert (Hearly : (Cooldown cfg
                    <? Time.Since (t0 + Cooldown cfg - Time.Second) t0) = false).
  { apply Z.ltb_ge. unfold Time.Since, Time.Sub. rewrite saturate_spec.
    unfold Time.minDuration, Time.maxDuration, Time.Second.
    unfold Int64.in_range in Hrange. lia. }
  assert (Hlate : (Cooldown cfg
                   <? Time.Since (t0 + Cooldown cfg + Time.Second) t0) = true).
  { apply Z.ltb_lt. unfold Time.Since, Time.Sub. rewrite saturate_spec.
    unfold Time.minDuration, Time.maxDuration, Time.Second in *.
    unfold Int64.in_range in Hrange. lia. }
  unfold early, late.
  rewrite (maybeApply_closed cfg desired current t0 _ rp done)
    by (rewrite Hd, Hearly; reflexivity).
  repeat split; try reflexivity.
  apply maybeApply_open. rewrite Hd, Hlate. reflexivity.
Qed.

Lemma cooldown_gate_witness :
  let t0 := 1000 in
  let cooldown := Cooldown default_config in
  mutation_invoked
    (trace (maybeApply default_config 3 2 t0 (t0 + cooldown - Time.Second)
              (DoFailed (ErrNet "timeout")) 0)) = false /\
  value (maybeApply default_config 3 2 t0 (t0 + cooldown - Time.Second)
           (DoFailed (ErrNet "timeout")) 0) = t0 /\
  mutation_invoked
    (trace (maybeApply default_config 3 2 t0 (t0 + cooldown + Time.Second)
              (DoFailed (ErrNet "timeout")) 0)) = true.
Proof.
  apply (cooldown_gate default_config 3 2 1000 (DoFailed (ErrNet "timeout")) 0).
  - vm_compute. split; discriminate.
  - vm_compute. reflexivity.
  - discriminate.
Defined.

(** C3: in every iteration in which the mutation is called and returns an
    error, [lastScale] is the same after the iteration as before. *)
Theorem failed_scale_keeps_lastScale (cfg : config) (lastScale : Z) (w : tick)
    (err : error) :
  let target := value (fetch cfg (clock_fetch w) (fetch_reply w)) in
  let desired := decide (avgCPU target) (replicas target) cfg in
  mutation_invoked (trace (cycle cfg lastScale w)) = true ->
  value (scale cfg desired (scale_reply w)) = Some err ->
  value (cycle cfg lastScale w) = lastScale.
Proof.
  intros target desired Hinvoked Herr.
  rewrite cycle_value. fold target. fold desired.
  rewrite cycle_mutation_invoked in Hinvoked. fold target desired in Hinvoked.
  destruct (negb (desired =? replicas target)
            && (Cooldown cfg <? Time.Since (clock_gate w) lastScale)) eqn:Hgate.
  - destruct (maybeApply_open cfg desired (replicas target) lastScale
                (clock_gate w) (scale_reply w) (clock_done w) Hgate)
      as (_ & _ & ->).
    rewrite Herr. reflexivity.
  - rewrite (maybeApply_closed _ _ _ _ _ _ _ Hgate). reflexivity.
Qed.

Lemma failed_scale_keeps_lastScale_witness :
  value (cycle default_config 0 failing_tick) = 0.
Proof.
  apply (failed_scale_keeps_lastScale default_config 0 failing_tick
           (ErrNet "connection reset")).
  - vm_compute. reflexivity.
  - vm_compute. reflexivity.
Defined.

(** ** Failures of the metric fetch *)

(** C5: when the round trip fails, the body does not decode or the payload
    reports errors, [fetch] returns the zero-value snapshot, with
    [avgCPU = 0] and [replicas = 0], and the loop goes on: the iteration and
    all the following ones run to their [time.Sleep]. *)
Theorem fetch_failure_is_recovered (cfg : config) (w : tick) :
  fetch_failure (fetch_reply w) ->
  value (fetch cfg (clock_fetch w) (fetch_reply w))
  = {| avgCPU := S754_zero false; replicas := 0 |}
  /\ forall (lastScale : Z) (ws : list tick),
       sleeps (trace (loop cfg lastScale (w :: ws))) = S (length ws).
Proof.
  intros Hfail. split.
  - unfold fetch. rewrite bind_value, doGraphQL_value.
    inversion Hfail as [e He | r e Hdec Hr | r Hdec Herrs Hr].
    + reflexivity.
    + cbn [decode_err]. rewrite Hdec. reflexivity.
    + cbn [decode_err decoded]. rewrite Hdec.
      destruct (Errors (decoded r)) as [| e es]; [congruence |].
      reflexivity.
  - intros lastScale ws. apply (loop_sleeps cfg (w :: ws)).
Qed.

Lemma fetch_failure_is_recovered_witness :
  value (fetch default_config 1000 (DoFailed (ErrNet "no route to host")))
  = {| avgCPU := S754_zero false; replicas := 0 |}
  /\ forall (lastScale : Z) (ws : list tick),
       sleeps (trace (loop default_config lastScale
                        ({| clock_fetch := 1000;
                            fetch_reply := DoFailed (ErrNet "no route to host");
                            clock_gate := 1001;
                            scale_reply := DoFailed (ErrNet "no route to host");
                            clock_done := 1002 |} :: ws)))
       = S (length ws).
Proof.
  apply (fetch_failure_is_recovered default_config
           {| clock_fetch := 1000;
              fetch_reply := DoFailed (ErrNet "no route to host");
              clock_gate := 1001;
              scale_reply := DoFailed (ErrNet "no route to host");
              clock_done := 1002 |}).
  simpl. apply CommunicationFailure.
Defined.

(** ** The first iteration *)

(** With the gate open, the trace of the actuation step starts with the
    trace of [scale]. *)
Lemma maybeApply_open_trace cfg desired current lastScale now rp done :
  negb (desired =? current) && (Cooldown cfg <? Time.Since now lastScale)
  = true ->
  exists logs,
    trace (maybeApply cfg desired current lastScale now rp done)
    = (trace (scale cfg desired rp) ++ logs)%list.
Proof.
  intros H. unfold maybeApply. rewrite H. rewrite bind_trace.
  eexists. reflexivity.
Qed.

(** C10: [main] enters the loop with [lastScale] set to the start-up clock
    minus the cooldown (a run that is stopped before its first iteration
    holds that value), and with it the first iteration of [main] passes the
    cooldown gate when it wants a change: the trace of [main] starts with
    the metric query of the first iteration followed at once by its call of
    the mutation.  The clock has advanced between start-up and the gate,
    and the cooldown lies strictly between the smallest and the largest
    duration. *)
Theorem first_cycle_eligible
    (ParseFloat : string -> float64 * option error)
    (ParseDuration : string -> Z * option error)
    (env : gmap string string) (cfg : config)
    (start : Z) (w : tick) (ws : list tick) :
  loadConfig ParseFloat ParseDuration env = Loaded cfg ->
  Time.minDuration < Cooldown cfg < Time.maxDuration ->
  start < clock_gate w ->
  let target := value (fetch cfg (clock_fetch w) (fetch_reply w)) in
  let desired := decide (avgCPU target) (replicas target) cfg in
  value (main ParseFloat ParseDuration env start [])
  = Polling (start - Cooldown cfg)
  /\ (desired <> replicas target ->
      mutation_invoked
        (trace (main ParseFloat ParseDuration env start (w :: ws))) = true
      /\ exists rest,
           trace (main ParseFloat ParseDuration env start (w :: ws))
           = (trace (fetch cfg (clock_fetch w) (fetch_reply w))
              ++ trace (scale cfg desired (scale_reply w))
              ++ rest)%list).
Proof.
  intros Hcfg Hcool Hclock target desired.
  assert (Hneg : Int64.neg (Cooldown cfg) = - Cooldown cfg).
  { apply wrap_id.
    unfold Time.minDuration, Time.maxDuration in Hcool. int64_range. }
  assert (Hinit : Time.Add start (Int64.neg (Cooldown cfg))
                  = start - Cooldown cfg).
  { unfold Time.Add. rewrite Hneg. lia. }
  split.
  - unfold main. rewrite Hcfg, Hinit. reflexivity.
  - intros Hne.
    assert (Hgate : negb (desired =? replicas target)
                    && (Cooldown cfg
                        <? Time.Since (clock_gate w) (start - Cooldown cfg))
                    = true).
    { apply andb_true_iff. split.
      - apply negb_true_iff, Z.eqb_neq, Hne.
      - apply Z.ltb_lt. unfold Time.Since, Time.Sub.
        rewrite saturate_spec.
        unfold Time.minDuration, Time.maxDuration,
          Int64.min_int, Int64.max_int in *. lia. }
    destruct (maybeApply_open_trace cfg desired (replicas target)
                (start - Cooldown cfg) (clock_gate w) (scale_reply w)
                (clock_done w) Hgate) as (logs & Hlogs).
    assert (Htrace : exists rest,
              trace (main ParseFloat ParseDuration env start (w :: ws))
              = (trace (fetch cfg (clock_fetch w) (fetch_reply w))
                 ++ trace (scale cfg desired (scale_reply w))
                 ++ rest)%list).
    { unfold main. rewrite Hcfg, Hinit. rewrite bind_trace.
      cbn [loop]. rewrite bind_trace, cycle_trace.
      fold target. cbv zeta. fold desired. rewrite Hlogs.
      eexists. rewrite <- !app_assoc. reflexivity. }
    split; [| exact Htrace].
    destruct Htrace as (rest & ->).
    rewrite !mutation_invoked_app.
    rewrite (proj1 (scale_trace cfg desired (scale_reply w))).
    rewrite orb_true_l. apply orb_true_r.
Qed.

Lemma first_cycle_eligible_witness :
  mutation_invoked
    (trace (main unused_ParseFloat unused_ParseDuration minimal_env
              (999 * Time.Second) [failing_tick]))
  = true.
Proof.
  refine (proj1 (proj2 (first_cycle_eligible unused_ParseFloat
                          unused_ParseDuration
                          minimal_env default_config (999 * Time.Second)
                          failing_tick [] _ _ _) _)).
  - vm_compute. reflexivity.
  - vm_compute. split; reflexivity.
  - vm_compute. reflexivity.
  - vm_compute. discriminate.
Defined.

(** ** A fetch without samples *)

(** The two loops of [fetch] visit the samples of all instances in order. *)
Lemma fold_instances (insts : list instanceMetrics) :
  forall acc,
    fold_left add_instance insts acc
    = fold_left add_point (concat (map Metrics insts)) acc.
Proof.
  induction insts as [| inst insts IH]; intros acc; [reflexivity |].
  cbn [fold_left map concat]. rewrite fold_left_app, IH. reflexivity.
Qed.

Lemma aggregate_no_sample (resp : gqlResponse) :
  samples resp = [] ->
  aggregate (Instances (Service (Data resp))) = (S754_zero false, 0).
Proof.
  unfold samples, aggregate. intros H. rewrite fold_instances, H. reflexivity.
Qed.

(** Without a scale-down branch, [decide] never returns less than the
    current count. *)
Lemma decide_at_floor (cpu : float64) (replicas : Z) (cfg : config) :
  Int64.in_range replicas ->
  Int64.in_range (Max cfg) ->
  replicas <= Min cfg ->
  replicas <= decide cpu replicas cfg.
Proof.
  intros Hr Hmax Hfloor. unfold decide.
  destruct (Float64.gt cpu (High cfg) && (replicas <? Max cfg)) eqn:Hup.
  - apply andb_true_iff in Hup as [_ Hlt]. apply Z.ltb_lt in Hlt.
    rewrite (add_one_below replicas (Max cfg)) by assumption. lia.
  - destruct (Z.ltb_spec (Min cfg) replicas) as [Hlt | Hge]; [lia |].
    rewrite andb_false_r. lia.
Qed.

(** C9, as the code has it: when the fetch succeeds without any sample, the
    snapshot has [avgCPU = 0] and the replica count that the remote reports;
    the sample count is 0 and no division takes place; and [decide], given
    that snapshot and a policy whose [Min] is at least the reported count
    (so for a reported count of 0 and [Min >= 1]), does not scale down. *)
Theorem zero_samples_snapshot (cfg : config) (now : Z)
    (r : response gqlResponse) :
  decode_err r = None ->
  Errors (decoded r) = [] ->
  samples (decoded r) = [] ->
  let snap := value (fetch cfg now (Responded r)) in
  snap = {| avgCPU := S754_zero false;
            replicas := Replicas (Service (Data (decoded r))) |}
  /\ snd (aggregate (Instances (Service (Data (decoded r))))) = 0
  /\ forall policy : config,
       Int64.in_range (replicas snap) ->
       Int64.in_range (Max policy) ->
       replicas snap <= Min policy ->
       replicas snap <= decide (avgCPU snap) (replicas snap) policy.
Proof.
  intros Hdec Herrs Hnone snap.
  assert (Hsnap : snap = {| avgCPU := S754_zero false;
                            replicas := Replicas (Service (Data (decoded r))) |}).
  { unfold snap, fetch. rewrite bind_value, doGraphQL_value.
    cbn [decode_err decoded]. rewrite Hdec, Herrs.
    rewrite (aggregate_no_sample (decoded r) Hnone). reflexivity. }
  split; [exact Hsnap |]. split.
  - rewrite (aggregate_no_sample (decoded r) Hnone). reflexivity.
  - intros policy Hr Hmax Hfloor. apply decide_at_floor; assumption.
Qed.

Lemma zero_samples_snapshot_witness :
  value (fetch default_config 0 (Responded idle_response))
  = {| avgCPU := S754_zero false; replicas := 3 |}.
Proof.
  refine (proj1 (zero_samples_snapshot default_config 0 idle_response _ _ _));
    reflexivity.
Defined.

(** C9 as stated fails: a successful fetch without samples of a service that
    runs 3 replicas gives a snapshot with [replicas = 3], not the zero-value
    snapshot, and with the default policy, whose [Min] is 1, [decide] turns
    it into a scale-down to 2. *)
Lemma zero_samples_counterexample :
  samples (decoded idle_response) = []
  /\ decode_err idle_response = None
  /\ value (fetch default_config 0 (Responded idle_response))
     <> {| avgCPU := S754_zero false; replicas := 0 |}
  /\ 1 <= Min default_config
  /\ decide (avgCPU (value (fetch default_config 0 (Responded idle_response))))
       (replicas (value (fetch default_config 0 (Responded idle_response))))
       default_config
     = 3 - 1.
Proof.
  split; [reflexivity |]. split; [reflexivity |].
  split; [vm_compute; discriminate |].
  split; [vm_compute; discriminate | vm_compute; reflexivity].
Qed.

(** ** The success criterion of the mutation *)

(** C7: [scale] succeeds exactly when the request completes and the body
    decodes.  So a decodable reply that carries a GraphQL [errors] payload
    counts as a success and the actuation step sets [lastScale] to the clock
    read after the call, whereas [fetch] treats a decoded reply with errors
    as a failure: it logs them and returns the zero-value snapshot. *)
Theorem scale_success_criterion (cfg : config) (desired : Z) :
  (forall rp : reply (gmap string any),
     value (scale cfg desired rp) = None
     <-> exists r, rp = Responded r /\ decode_err r = None)
  /\ (forall (r : response (gmap string any)) (errs : list any)
        (current lastScale now done : Z),
        decode_err r = None ->
        decoded r !! "errors" = Some (AnyList errs) ->
        errs <> [] ->
        desired <> current ->
        Cooldown cfg < Time.Since now lastScale ->
        value (maybeApply cfg desired current lastScale now (Responded r) done)
        = done)
  /\ (forall (r : response gqlResponse) (now : Z),
        decode_err r = None ->
        Errors (decoded r) <> [] ->
        value (fetch cfg now (Responded r)) = zero_snapshot
        /\ In (Printf "gql errs: %+v" (ArgErrs (Errors (decoded r))))
             (trace (fetch cfg now (Responded r)))).
Proof.
  split; [| split].
  - intros rp. rewrite scale_value. destruct rp as [e | r].
    + split; [discriminate | intros (r & Hr & _); discriminate].
    + split; [intros H; exists r; split; [reflexivity | exact H] |].
      intros (r' & Hr & Hdec). injection Hr as ->. exact Hdec.
  - intros r errs current lastScale now done Hdec _ _ Hne Hgate.
    assert (Hopen : negb (desired =? current)
                    && (Cooldown cfg <? Time.Since now lastScale) = true).
    { apply andb_true_iff. split.
      - apply negb_true_iff, Z.eqb_neq, Hne.
      - apply Z.ltb_lt, Hgate. }
    destruct (maybeApply_open cfg desired current lastScale now
                (Responded r) done Hopen) as (_ & _ & ->).
    rewrite scale_value, Hdec. reflexivity.
  - intros r now Hdec Herrs.
    unfold fetch. rewrite bind_value, bind_trace, doGraphQL_value.
    cbn [decode_err decoded]. rewrite Hdec.
    destruct (Errors (decoded r)) as [| e es] eqn:He; [congruence |].
    split; [reflexivity |].
    apply in_or_app. right. left. reflexivity.
Qed.

Lemma scale_success_criterion_witness :
  value (maybeApply default_config 3 2 0 (1001 * Time.Second)
           (Responded rejected_response) (1002 * Time.Second))
  = 1002 * Time.Second.
Proof.
  refine (proj1 (proj2 (scale_success_criterion default_config 3))
            rejected_response
            [AnyMap (<["message" := AnyString "Not Authorized"]> ∅)]
            2 0 (1001 * Time.Second) (1002 * Time.Second) _ _ _ _ _).
  - reflexivity.
  - vm_compute. reflexivity.
  - discriminate.
  - discriminate.
  - vm_compute. reflexivity.
Defined.

(** ** Configuration errors *)

Lemma parseUint_digits_syntax (s : string) :
  forall n,
    snd (parseUint_digits s n) = Some ErrSyntax ->
    fst (parseUint_digits s n) = 0.
Proof.
  induction s as [| c s IH]; intros n; cbn [parseUint_digits];
    [discriminate |].
  destruct (digit c) as [d |]; [| reflexivity].
  destruct (_ <=? n); [discriminate |].
  destruct (_ || _); [discriminate | apply IH].
Qed.

Lemma ParseInt_syntax (s : string) :
  snd (ParseInt s) = Some ErrSyntax -> fst (ParseInt s) = 0.
Proof.
  destruct s as [| c rest]; [reflexivity |]. unfold ParseInt.
  destruct (ParseUint _) as [un [[ | | | | ] |]]; try reflexivity;
    destruct (negb _ && _); try discriminate;
    destruct (_ && (_ <? un)); discriminate.
Qed.

(** A syntax error of [Atoi] comes with the value 0. *)
Lemma Atoi_syntax_error (s : string) :
  snd (Atoi s) = Some ErrSyntax -> fst (Atoi s) = 0.
Proof.
  unfold Atoi.
  destruct ((0 <? Z.of_nat (String.length s))
            && (Z.of_nat (String.length s) <? 19)); [| apply ParseInt_syntax].
  destruct s as [| c rest]; [reflexivity |].
  destruct (_ && (_ <? 1)); [reflexivity |].
  destruct (digits _ 0) as [n |]; [discriminate | reflexivity].
Qed.

(** Digits that overflow are a range error at the bound even when a byte
    that is not a digit follows; a byte that is not a digit before any
    overflow is a syntax error. *)
Lemma Atoi_overflow_first :
  Atoi "99999999999999999999x" = (Int64.max_int, Some ErrRange)
  /\ Atoi "-99999999999999999999x" = (Int64.min_int, Some ErrRange)
  /\ Atoi "9223372036854775808x" = (0, Some ErrSyntax)
  /\ Atoi "9223372036854775808" = (Int64.max_int, Some ErrRange)
  /\ Atoi "-9223372036854775808" = (Int64.min_int, None)
  /\ Atoi "+42" = (42, None)
  /\ Atoi "-" = (0, Some ErrSyntax)
  /\ Atoi EmptyString = (0, Some ErrSyntax).
Proof. repeat split; vm_compute; reflexivity. Qed.

Lemma must_present
    (env : gmap string string) (key : string) :
  Getenv env key <> EmptyString -> must env key = Loaded (Getenv env key).
Proof.
  intros H. unfold must. apply String.eqb_neq in H. rewrite H. reflexivity.
Qed.

Lemma must_missing (env : gmap string string) (key : string) :
  Getenv env key = EmptyString -> must env key = Fatalf "missing env %s" key.
Proof. intros H. unfold must. rewrite H. reflexivity. Qed.

(** C6, as the code has it: a required value that is missing or empty,
    [RAILWAY_TOKEN] or [SERVICE_ID], is fatal at start-up, before the loop
    does anything; an optional value that is set is replaced by what its
    parser returns, whether or not the parser reports an error, and the
    loop then runs every iteration; a run exits only at start-up, never
    from an iteration. *)
Theorem config_errors
    (ParseFloat : string -> float64 * option error)
    (ParseDuration : string -> Z * option error)
    (env : gmap string string) :
  (Getenv env "RAILWAY_TOKEN" = EmptyString
   \/ Getenv env "SERVICE_ID" = EmptyString ->
   exists key,
     loadConfig ParseFloat ParseDuration env = Fatalf "missing env %s" key
     /\ forall start ws,
          main ParseFloat ParseDuration env start ws
          = (Exited "missing env %s" key, []))
  /\ (Getenv env "RAILWAY_TOKEN" <> EmptyString ->
      Getenv env "SERVICE_ID" <> EmptyString ->
      exists cfg,
        loadConfig ParseFloat ParseDuration env = Loaded cfg
        /\ (forall v, Getenv env "CPU_HIGH" = v -> v <> EmptyString ->
              High cfg = fst (ParseFloat v))
        /\ (forall v, Getenv env "CPU_LOW" = v -> v <> EmptyString ->
              Low cfg = fst (ParseFloat v))
        /\ (forall v, Getenv env "MIN_REPLICAS" = v -> v <> EmptyString ->
              Min cfg = fst (Atoi v))
        /\ (forall v, Getenv env "MAX_REPLICAS" = v -> v <> EmptyString ->
              Max cfg = fst (Atoi v))
        /\ (forall v, Getenv env "COOLDOWN" = v -> v <> EmptyString ->
              Cooldown cfg = fst (ParseDuration v))
        /\ (forall v, Getenv env "POLL_INTERVAL" = v -> v <> EmptyString ->
              Interval cfg = fst (ParseDuration v))
        /\ forall start ws,
             (exists lastScale,
                value (main ParseFloat ParseDuration env start ws)
                = Polling lastScale)
             /\ sleeps (trace (main ParseFloat ParseDuration env start ws))
                = length ws)
  /\ (forall start ws format key,
        value (main ParseFloat ParseDuration env start ws) = Exited format key ->
        loadConfig ParseFloat ParseDuration env = Fatalf format key
        /\ trace (main ParseFloat ParseDuration env start ws) = []).
Proof.
  split; [| split].
  - intros Hmissing.
    destruct (String.eqb_spec (Getenv env "RAILWAY_TOKEN") EmptyString)
      as [Htoken | Htoken].
    + exists "RAILWAY_TOKEN".
      assert (Hload : loadConfig ParseFloat ParseDuration env
                      = Fatalf "missing env %s" "RAILWAY_TOKEN").
      { unfold loadConfig. rewrite (must_missing env _ Htoken). reflexivity. }
      split; [exact Hload |]. intros start ws. unfold main. rewrite Hload.
      reflexivity.
    + destruct Hmissing as [H | Hservice]; [contradiction |].
      exists "SERVICE_ID".
      assert (Hload : loadConfig ParseFloat ParseDuration env
                      = Fatalf "missing env %s" "SERVICE_ID").
      { unfold loadConfig.
        rewrite (must_present env _ Htoken), (must_missing env _ Hservice).
        reflexivity. }
      split; [exact Hload |]. intros start ws. unfold main. rewrite Hload.
      reflexivity.
  - intros Htoken Hservice. eexists. split.
    { unfold loadConfig.
      rewrite (must_present env _ Htoken), (must_present env _ Hservice).
      reflexivity. }
    cbn [High Low Min Max Cooldown Interval].
    unfold parseF, parseI, parseDur.
    repeat (split;
            [intros v Hv Hne; rewrite Hv; apply String.eqb_neq in Hne;
             rewrite Hne; reflexivity |]).
    intros start ws. unfold main, loadConfig.
    rewrite (must_present env _ Htoken), (must_present env _ Hservice).
    rewrite bind_value, bind_trace, sleeps_app, loop_sleeps.
    split; [eexists; reflexivity | cbn; lia].
  - intros start ws format key. unfold main.
    destruct (loadConfig ParseFloat ParseDuration env) as [cfg | f k].
    + rewrite bind_value. discriminate.
    + cbn. intros H. injection H as -> ->. split; reflexivity.
Qed.

Lemma config_errors_witness :
  (exists cfg,
     loadConfig unused_ParseFloat unused_ParseDuration unparseable_env
     = Loaded cfg
     /\ Min cfg = fst (Atoi "abc"))
  /\ exists key,
       loadConfig unused_ParseFloat unused_ParseDuration
         (delete "SERVICE_ID" minimal_env)
       = Fatalf "missing env %s" key.
Proof.
  split.
  - destruct (proj1 (proj2 (config_errors unused_ParseFloat
                              unused_ParseDuration unparseable_env)))
      as (cfg & Hload & _ & _ & Hmin & _).
    + vm_compute. discriminate.
    + vm_compute. discriminate.
    + exists cfg. split; [exact Hload |]. apply Hmin.
      * vm_compute. reflexivity.
      * discriminate.
  - destruct (proj1 (config_errors unused_ParseFloat unused_ParseDuration
                       (delete "SERVICE_ID" minimal_env)))
      as (key & Hload & _).
    + right. vm_compute. reflexivity.
    + exists key. exact Hload.
Defined.

(** C6 as stated fails: [MIN_REPLICAS=abc] does not parse, yet [loadConfig]
    does not exit; it returns a policy with [Min = 0], which breaks
    [0 < Min], and [main] runs the loop with it. *)
Lemma config_errors_counterexample :
  Atoi "abc" = (0, Some ErrSyntax)
  /\ match loadConfig unused_ParseFloat unused_ParseDuration unparseable_env
     with
     | Loaded cfg => Min cfg = 0 /\ ~ valid_policy cfg
     | Fatalf _ _ => False
     end
  /\ value (main unused_ParseFloat unused_ParseDuration unparseable_env
              (999 * Time.Second) [failing_tick])
     = Polling (999 * Time.Second - Cooldown default_config)
  /\ mutation_invoked
       (trace (main unused_ParseFloat unused_ParseDuration unparseable_env
                 (999 * Time.Second) [failing_tick]))
     = true.
Proof.
  split; [vm_compute; reflexivity |].
  split.
  - assert (Hload : exists cfg,
              loadConfig unused_ParseFloat unused_ParseDuration unparseable_env
              = Loaded cfg /\ Min cfg = 0).
    { eexists. split; [vm_compute; reflexivity | reflexivity]. }
    destruct Hload as (cfg & -> & Hmin). split; [exact Hmin |].
    unfold valid_policy. intros [_ [Hpos _]]. lia.
  - split; vm_compute; reflexivity.
Qed.

(** * Further properties of the code *)

(** ** The order of floats *)

Ltac order_cases :=
  repeat match goal with
  | H : context [Pos.compare_cont Eq ?a ?b] |- _ =>
      change (Pos.compare_cont Eq a b) with (Pos.compare a b) in H
  | |- context [Pos.compare_cont Eq ?a ?b] =>
      change (Pos.compare_cont Eq a b) with (Pos.compare a b)
  end;
  repeat match goal with
  | H : context [Z.compare ?a ?b] |- _ => destruct (Z.compare_spec a b)
  | |- context [Z.compare ?a ?b] => destruct (Z.compare_spec a b)
  | H : context [Pos.compare ?a ?b] |- _ => destruct (Pos.compare_spec a b)
  | |- context [Pos.compare ?a ?b] => destruct (Pos.compare_spec a b)
  end;
  simpl in *; subst; try congruence; try lia.

Ltac float_cases x y z :=
  let sx := fresh "sx" in
  let sy := fresh "sy" in
  let sz := fresh "sz" in
  destruct x as [sx | sx | | sx ? ?], y as [sy | sy | | sy ? ?],
    z as [sz | sz | | sz ? ?]; simpl; try congruence;
  try (destruct sx; simpl; congruence);
  try (destruct sy; simpl; congruence);
  try (destruct sz; simpl; congruence);
  try (destruct sx, sy; simpl; congruence);
  try (destruct sx, sz; simpl; congruence);
  try (destruct sy, sz; simpl; congruence);
  try (destruct sx, sy, sz; simpl; congruence);
  destruct sx, sy, sz; simpl; try congruence; order_cases.

Lemma lt_le_trans (x y z : float64) :
  Float64.lt x y = true -> Float64.le y z = true -> Float64.lt x z = true.
Proof. unfold Float64.lt, Float64.le, SFltb, SFleb. float_cases x y z. Qed.

Lemma le_lt_trans (x y z : float64) :
  Float64.le x y = true -> Float64.lt y z = true -> Float64.lt x z = true.
Proof. unfold Float64.lt, Float64.le, SFltb, SFleb. float_cases x y z. Qed.

(** ** More on the decision function *)

(** The three possible results of [decide] for Go integers. *)
Lemma decide_cases (cpu : float64) (replicas : Z) (cfg : config) :
  Int64.in_range replicas ->
  Int64.in_range (Min cfg) ->
  Int64.in_range (Max cfg) ->
  let up := Float64.gt cpu (High cfg) = true /\ replicas < Max cfg in
  let down := Float64.lt cpu (Low cfg) = true /\ Min cfg < replicas in
  (up /\ decide cpu replicas cfg = replicas + 1)
  \/ (~ up /\ down /\ decide cpu replicas cfg = replicas - 1)
  \/ (~ up /\ ~ down /\ decide cpu replicas cfg = replicas).
Proof.
  intros Hr Hmin Hmax up down. unfold up, down, decide.
  destruct (Float64.gt cpu (High cfg)) eqn:Hgt;
    destruct (Z.ltb_spec replicas (Max cfg)) as [Hlt | Hge];
    destruct (Float64.lt cpu (Low cfg)) eqn:Hlow;
    destruct (Z.ltb_spec (Min cfg) replicas) as [Hlt' | Hge'];
    cbn [andb];
    try rewrite (add_one_below replicas (Max cfg)) by assumption;
    try rewrite (sub_one_above replicas (Min cfg)) by assumption;
    first [ left; split; [split; [reflexivity | assumption] | reflexivity]
          | right; left; split; [| split; [split; [reflexivity | assumption]
                                          | reflexivity]];
            intros [? ?]; (congruence || lia)
          | right; right; split; [| split; [| reflexivity]];
            intros [? ?]; (congruence || lia) ].
Qed.

(** X1: [decide] moves the replica count by at most one. *)
Theorem decide_single_step (cpu : float64) (replicas : Z) (cfg : config) :
  Int64.in_range replicas ->
  Int64.in_range (Min cfg) ->
  Int64.in_range (Max cfg) ->
  replicas - 1 <= decide cpu replicas cfg <= replicas + 1.
Proof.
  intros Hr Hmin Hmax.
  destruct (decide_cases cpu replicas cfg Hr Hmin Hmax)
    as [(_ & ->) | [(_ & _ & ->) | (_ & _ & ->)]]; lia.
Qed.

Lemma decide_single_step_witness :
  7 - 1 <= decide (Float64.of_int 10) 7 default_config <= 7 + 1.
Proof.
  apply (decide_single_step (Float64.of_int 10) 7 default_config);
    simpl; int64_range.
Defined.

(** X2: whatever the current count, even outside the band, a scale-up never
    goes above [Max] and a scale-down never goes below [Min]. *)
Theorem decide_never_past_limits (cpu : float64) (replicas : Z) (cfg : config) :
  Int64.in_range replicas ->
  Int64.in_range (Min cfg) ->
  Int64.in_range (Max cfg) ->
  (replicas < decide cpu replicas cfg -> decide cpu replicas cfg <= Max cfg)
  /\ (decide cpu replicas cfg < replicas -> Min cfg <= decide cpu replicas cfg).
Proof.
  intros Hr Hmin Hmax.
  destruct (decide_cases cpu replicas cfg Hr Hmin Hmax)
    as [([_ ?] & ->) | [(_ & [_ ?] & ->) | (_ & _ & ->)]]; lia.
Qed.

Lemma decide_never_past_limits_witness :
  (9 < decide (Float64.of_int 10) 9 default_config ->
   decide (Float64.of_int 10) 9 default_config <= 5)
  /\ (decide (Float64.of_int 10) 9 default_config < 9 ->
      1 <= decide (Float64.of_int 10) 9 default_config).
Proof.
  apply (decide_never_past_limits (Float64.of_int 10) 9 default_config);
    simpl; int64_range.
Defined.

(** X3: at or above [Max] the count is never raised, and at or below [Min]
    it is never lowered. *)
Theorem decide_at_limits (cpu : float64) (replicas : Z) (cfg : config) :
  Int64.in_range replicas ->
  Int64.in_range (Min cfg) ->
  Int64.in_range (Max cfg) ->
  (Max cfg <= replicas -> decide cpu replicas cfg <= replicas)
  /\ (replicas <= Min cfg -> replicas <= decide cpu replicas cfg).
Proof.
  intros Hr Hmin Hmax.
  destruct (decide_cases cpu replicas cfg Hr Hmin Hmax)
    as [([_ ?] & ->) | [(_ & [_ ?] & ->) | (_ & _ & ->)]]; lia.
Qed.

Lemma decide_at_limits_witness :
  (5 <= 5 -> decide (Float64.of_int 99) 5 default_config <= 5)
  /\ (5 <= 1 -> 5 <= decide (Float64.of_int 99) 5 default_config).
Proof.
  apply (decide_at_limits (Float64.of_int 99) 5 default_config);
    simpl; int64_range.
Defined.

(** X4: a NaN utilization leaves the count unchanged; a NaN [High] disables
    the scale-up and a NaN [Low] disables the scale-down. *)
Theorem decide_nan (cpu : float64) (replicas : Z) (cfg : config) :
  decide S754_nan replicas cfg = replicas
  /\ (High cfg = S754_nan -> Int64.in_range replicas ->
      Int64.in_range (Min cfg) -> decide cpu replicas cfg <= replicas)
  /\ (Low cfg = S754_nan -> Int64.in_range replicas ->
      Int64.in_range (Max cfg) -> replicas <= decide cpu replicas cfg).
Proof.
  split; [| split].
  - unfold decide, Float64.gt, Float64.lt, SFltb.
    destruct (High cfg), (Low cfg); reflexivity.
  - intros Hnan Hr Hmin. unfold decide. rewrite Hnan.
    replace (Float64.gt cpu S754_nan) with false
      by (unfold Float64.gt, SFltb; reflexivity).
    cbn [andb].
    destruct (Float64.lt cpu (Low cfg) && (Min cfg <? replicas)) eqn:Hdown;
      [| lia].
    apply andb_true_iff in Hdown as [_ Hlt]. apply Z.ltb_lt in Hlt.
    rewrite (sub_one_above replicas (Min cfg)) by assumption. lia.
  - intros Hnan Hr Hmax. unfold decide. rewrite Hnan.
    replace (Float64.lt cpu S754_nan) with false
      by (unfold Float64.lt, SFltb; destruct cpu; reflexivity).
    cbn [andb].
    destruct (Float64.gt cpu (High cfg) && (replicas <? Max cfg)) eqn:Hup;
      [| lia].
    apply andb_true_iff in Hup as [_ Hlt]. apply Z.ltb_lt in Hlt.
    rewrite (add_one_below replicas (Max cfg)) by assumption. lia.
Qed.

(** X5: [decide] is monotone in the utilization: with the same count and
    policy, a higher utilization never gives a lower result. *)
Theorem decide_monotone (cpu1 cpu2 : float64) (replicas : Z) (cfg : config) :
  Int64.in_range replicas ->
  Int64.in_range (Min cfg) ->
  Int64.in_range (Max cfg) ->
  Float64.le cpu1 cpu2 = true ->
  decide cpu1 replicas cfg <= decide cpu2 replicas cfg.
Proof.
  intros Hr Hmin Hmax Hle.
  destruct (decide_cases cpu1 replicas cfg Hr Hmin Hmax)
    as [([Hgt1 Hlt1] & H1) | [(_ & _ & H1) | (_ & Hnd1 & H1)]];
    destruct (decide_cases cpu2 replicas cfg Hr Hmin Hmax)
      as [(_ & H2) | [(Hnu2 & [Hlow2 Hmin2] & H2) | (Hnu2 & _ & H2)]];
    rewrite H1, H2; try lia.
  - exfalso. apply Hnu2. split; [| exact Hlt1].
    exact (lt_le_trans _ _ _ Hgt1 Hle).
  - exfalso. apply Hnu2. split; [| exact Hlt1].
    exact (lt_le_trans _ _ _ Hgt1 Hle).
  - exfalso. apply Hnd1. split; [| exact Hmin2].
    exact (le_lt_trans _ _ _ Hle Hlow2).
Qed.

Lemma decide_monotone_witness :
  decide (Float64.of_int 20) 2 default_config
  <= decide (Float64.of_int 80) 2 default_config.
Proof.
  apply (decide_monotone (Float64.of_int 20) (Float64.of_int 80) 2
           default_config); try (simpl; int64_range).
  vm_compute. reflexivity.
Defined.

Lemma decide_nan_witness :
  decide (Float64.of_int 99) 2
    {| Token := "token"; ServiceID := "service";
       High := S754_nan; Low := Float64.of_int 30;
       Min := 1; Max := 5;
       Cooldown := 120 * Time.Second; Interval := 30 * Time.Second |}
  <= 2.
Proof.
  refine (proj1 (proj2 (decide_nan (Float64.of_int 99) 2 _)) _ _ _).
  - reflexivity.
  - int64_range.
  - simpl. int64_range.
Defined.

(** ** More on the requests *)

Lemma no_post_no_request (t : list event) :
  existsb is_post t = false ->
  queries t = 0%nat /\ mutations t = 0%nat /\ requested_counts t = [].
Proof.
  unfold queries, mutations, requested_counts.
  induction t as [| e t IH]; [intros _; repeat split; reflexivity |].
  destruct e as [url token req | format arg | d]; cbn [existsb is_post orb];
    [discriminate | |]; intros H; destruct (IH H) as (Hq & Hm & Hc);
    cbn [List.filter is_query is_mutation omap list_omap requested_count];
    repeat split; assumption.
Qed.

(** [doGraphQL] sends one request, and what follows it in the trace is at
    most the log line of a failed close. *)
Lemma doGraphQL_one_post {A} query vars token (into : A) (rp : reply A) :
  exists logs,
    trace (doGraphQL query vars token into rp)
    = Post endpoint token {| Query := query; Variables := vars |} :: logs
    /\ existsb is_post logs = false
    /\ existsb is_fetch_warning logs = false.
Proof.
  destruct rp as [e | [d de [ce | ]]]; eexists; (split; [reflexivity |]);
    split; reflexivity.
Qed.

(** The two loops of [fetch] add up the samples and count them. *)
Lemma fold_points (pts : list metricPoint) :
  forall (sum : float64) (count : Z),
    0 <= count ->
    count + Z.of_nat (length pts) <= Int64.max_int ->
    fold_left add_point pts (sum, count)
    = (fold_left Float64.add (map Cpu pts) sum,
       count + Z.of_nat (length pts)).
Proof.
  induction pts as [| p pts IH]; intros sum count Hpos Hmax.
  - cbn. f_equal. lia.
  - cbn [length] in Hmax. rewrite Nat2Z.inj_succ in Hmax.
    assert (Hstep : Int64.add count 1 = count + 1).
    { apply wrap_id. int64_range. }
    cbn [fold_left map length].
    replace (add_point (sum, count) p)
      with (Float64.add sum (Cpu p), count + 1)
      by (unfold add_point; cbn [fst snd]; rewrite Hstep; reflexivity).
    rewrite IH by lia.
    f_equal. rewrite Nat2Z.inj_succ. lia.
Qed.

(** X6: a fetch that succeeds returns the replica count that the remote
    reports and the unweighted mean of all samples of all instances (0 when
    there is none): how the samples are spread over the instances does not
    matter. *)
Theorem fetch_mean_of_all_samples (cfg : config) (now : Z)
    (r : response gqlResponse) :
  decode_err r = None ->
  Errors (decoded r) = [] ->
  Z.of_nat (length (samples (decoded r))) <= Int64.max_int ->
  value (fetch cfg now (Responded r))
  = {| avgCPU := mean (map Cpu (samples (decoded r)));
       replicas := Replicas (Service (Data (decoded r))) |}.
Proof.
  intros Hdec Herrs Hlen.
  unfold fetch. rewrite bind_value, doGraphQL_value.
  cbn [decode_err decoded]. rewrite Hdec, Herrs.
  change (0 <? Z.of_nat (length (@nil gqlError))) with false. cbv iota.
  unfold aggregate. rewrite fold_instances. fold (samples (decoded r)).
  rewrite fold_points by (cbn; lia). rewrite Z.add_0_l.
  destruct (samples (decoded r)) as [| p pts] eqn:Hs; [reflexivity |].
  replace (0 <? Z.of_nat (length (p :: pts))) with true
    by (symmetry; apply Z.ltb_lt; cbn [length]; lia).
  unfold mean. cbn [map length]. rewrite length_map. reflexivity.
Qed.

Lemma fetch_mean_of_all_samples_witness :
  value (fetch default_config 0 (healthy_reply (Float64.of_int 80) 2))
  = {| avgCPU := mean [Float64.of_int 80]; replicas := 2 |}.
Proof.
  apply (fetch_mean_of_all_samples default_config 0
           {| decoded :=
                {| Data := {| Service :=
                     {| Instances :=
                          [ {| Metrics := [ {| Cpu := Float64.of_int 80 |} ] |} ];
                        Replicas := 2 |} |};
                   Errors := [] |};
              decode_err := None;
              close_err := None |}).
  - reflexivity.
  - reflexivity.
  - vm_compute. discriminate.
Defined.

(** X7: [fetch] sends exactly one request: the metric query, to the
    endpoint, with the token of the configuration, for the service of the
    configuration and for the window that ends at the current time and, when
    twice the poll interval is a duration, starts twice the poll interval
    before it. *)
Theorem fetch_sends_one_query (cfg : config) (now : Z)
    (rp : reply gqlResponse) :
  Int64.in_range (-2 * Interval cfg) ->
  exists vars logs,
    trace (fetch cfg now rp)
    = Post endpoint (Token cfg) {| Query := fetch_query; Variables := vars |}
      :: logs
    /\ existsb is_post logs = false
    /\ vars !! "id" = Some (AnyString (ServiceID cfg))
    /\ vars !! "from" = Some (AnyRFC3339 (now - 2 * Interval cfg))
    /\ vars !! "to" = Some (AnyRFC3339 now).
Proof.
  intros Hrange. unfold fetch. rewrite bind_trace.
  set (vars := <["id":=_]> _).
  destruct (doGraphQL_one_post fetch_query vars (Token cfg) zero_gqlResponse rp)
    as (logs & -> & Hposts & _).
  rewrite doGraphQL_value.
  eexists vars, _. split; [rewrite <- app_comm_cons; reflexivity |].
  split; [| split; [| split]].
  - rewrite existsb_app, Hposts.
    destruct rp as [e | [d [de | ] ce]]; cbn [decode_err decoded];
      try reflexivity.
    destruct (0 <? Z.of_nat (length (Errors d))); [reflexivity |].
    destruct (aggregate _) as [sum count]. reflexivity.
  - unfold vars. apply lookup_insert_eq.
  - unfold vars. rewrite lookup_insert_ne by discriminate.
    rewrite lookup_insert_eq. unfold Time.Add, Int64.mul.
    rewrite (wrap_id _ Hrange). do 2 f_equal. lia.
  - unfold vars. rewrite lookup_insert_ne by discriminate.
    rewrite lookup_insert_ne by discriminate. apply lookup_insert_eq.
Qed.

Lemma fetch_sends_one_query_witness :
  exists vars logs,
    trace (fetch default_config 1000 (DoFailed (ErrNet "no route to host")))
    = Post endpoint "token" {| Query := fetch_query; Variables := vars |}
      :: logs
    /\ existsb is_post logs = false
    /\ vars !! "id" = Some (AnyString "service")
    /\ vars !! "from" = Some (AnyRFC3339 (1000 - 2 * Interval default_config))
    /\ vars !! "to" = Some (AnyRFC3339 1000).
Proof.
  apply (fetch_sends_one_query default_config 1000
           (DoFailed (ErrNet "no route to host"))).
  vm_compute. split; discriminate.
Defined.

(** X8: [fetch] logs one of its two warnings exactly when the fetch fails. *)
Theorem fetch_warns_iff_failure (cfg : config) (now : Z)
    (rp : reply gqlResponse) :
  existsb is_fetch_warning (trace (fetch cfg now rp)) = true
  <-> fetch_failure rp.
Proof.
  unfold fetch. rewrite bind_trace.
  set (vars := <["id":=_]> _).
  destruct (doGraphQL_one_post fetch_query vars (Token cfg) zero_gqlResponse rp)
    as (logs & -> & _ & Hwarn).
  rewrite doGraphQL_value, <- app_comm_cons.
  cbn [existsb is_fetch_warning orb]. rewrite existsb_app, Hwarn. cbn [orb].
  destruct rp as [e | r].
  - split; [intros _; constructor | reflexivity].
  - destruct (decode_err r) as [de | ] eqn:Hdec.
    + split; [intros _; econstructor; exact Hdec | reflexivity].
    + destruct (Errors (decoded r)) as [| e es] eqn:Herrs.
      * cbn [length Z.of_nat Z.ltb].
        destruct (aggregate _) as [sum count]. cbn.
        split; [discriminate |].
        intros Hfail. inversion Hfail; congruence.
      * split; [| reflexivity].
        intros _. apply RemoteError; [exact Hdec | congruence].
Qed.

(** X9: an error of closing the response body is logged and changes nothing
    else: the snapshot of [fetch] and the result of [scale] are the ones of
    the same reply without the close error. *)
Theorem close_error_is_only_logged (cfg : config) (now desired : Z)
    (ce : error) :
  (forall (d : gqlResponse) (de : option error),
     value (fetch cfg now (Responded {| decoded := d; decode_err := de;
                                        close_err := Some ce |}))
     = value (fetch cfg now (Responded {| decoded := d; decode_err := de;
                                          close_err := None |}))
     /\ In (Printf "close err: %v" (ArgErr ce))
          (trace (fetch cfg now (Responded {| decoded := d; decode_err := de;
                                              close_err := Some ce |}))))
  /\ (forall (d : gmap string any) (de : option error),
        value (scale cfg desired (Responded {| decoded := d; decode_err := de;
                                               close_err := Some ce |}))
        = value (scale cfg desired (Responded {| decoded := d; decode_err := de;
                                                 close_err := None |}))
        /\ In (Printf "close err: %v" (ArgErr ce))
             (trace (scale cfg desired
                       (Responded {| decoded := d; decode_err := de;
                                     close_err := Some ce |})))).
Proof.
  split; intros d de; split.
  - unfold fetch. rewrite !bind_value, !doGraphQL_value. reflexivity.
  - unfold fetch. rewrite bind_trace. apply in_or_app. left.
    right. left. reflexivity.
  - rewrite !scale_value. reflexivity.
  - unfold scale. rewrite bind_trace. apply in_or_app. left.
    right. left. reflexivity.
Qed.

(** ** Requests of one iteration *)

Lemma queries_app (t1 t2 : list event) :
  queries (t1 ++ t2) = (queries t1 + queries t2)%nat.
Proof. unfold queries. rewrite List.filter_app. apply length_app. Qed.

Lemma mutations_app (t1 t2 : list event) :
  mutations (t1 ++ t2) = (mutations t1 + mutations t2)%nat.
Proof. unfold mutations. rewrite List.filter_app. apply length_app. Qed.

Lemma requested_counts_app (t1 t2 : list event) :
  requested_counts (t1 ++ t2)
  = (requested_counts t1 ++ requested_counts t2)%list.
Proof. unfold requested_counts. apply omap_app. Qed.

Lemma mutation_not_query : String.eqb scale_mutation fetch_query = false.
Proof. vm_compute. reflexivity. Qed.

Lemma fetch_requests (cfg : config) (now : Z) (rp : reply gqlResponse) :
  queries (trace (fetch cfg now rp)) = 1%nat
  /\ mutations (trace (fetch cfg now rp)) = 0%nat
  /\ requested_counts (trace (fetch cfg now rp)) = [].
Proof.
  unfold fetch. rewrite bind_trace.
  set (vars := <["id":=_]> _).
  destruct (doGraphQL_one_post fetch_query vars (Token cfg) zero_gqlResponse rp)
    as (logs & -> & Hposts & _).
  rewrite doGraphQL_value, <- app_comm_cons.
  match goal with
  | |- context [(logs ++ ?rest)%list] =>
      assert (Hrest : existsb is_post (logs ++ rest) = false)
  end.
  { rewrite existsb_app, Hposts.
    destruct rp as [e | [d [de | ] ce]]; cbn [decode_err decoded];
      try reflexivity.
    destruct (0 <? Z.of_nat (length (Errors d))); [reflexivity |].
    destruct (aggregate _) as [sum count]. reflexivity. }
  destruct (no_post_no_request _ Hrest) as (Hq & Hm & Hc).
  unfold queries, mutations, requested_counts in *.
  cbn [List.filter is_query is_mutation omap list_omap requested_count Query].
  rewrite String.eqb_refl, fetch_query_not_mutation.
  cbn [length]. rewrite Hq, Hm, Hc. repeat split; reflexivity.
Qed.

Lemma scale_requests (cfg : config) (desired : Z)
    (rp : reply (gmap string any)) :
  queries (trace (scale cfg desired rp)) = 0%nat
  /\ mutations (trace (scale cfg desired rp)) = 1%nat
  /\ requested_counts (trace (scale cfg desired rp)) = [AnyInt desired].
Proof.
  unfold scale. rewrite bind_trace.
  set (vars := <["id":=_]> _).
  assert (Hcount : vars !! "count" = Some (AnyInt desired)).
  { unfold vars. rewrite lookup_insert_ne by discriminate.
    apply lookup_insert_eq. }
  destruct (doGraphQL_one_post scale_mutation vars (Token cfg)
              (∅ : gmap string any) rp) as (logs & -> & Hposts & _).
  rewrite app_nil_r.
  destruct (no_post_no_request _ Hposts) as (Hq & Hm & Hc).
  unfold queries, mutations, requested_counts in *.
  cbn [List.filter is_query is_mutation omap list_omap requested_count Query
       Variables].
  rewrite String.eqb_refl, mutation_not_query, Hcount.
  cbn [length]. rewrite Hq, Hm, Hc. repeat split; reflexivity.
Qed.

Lemma maybeApply_requests cfg desired current lastScale now rp done :
  let gate := negb (desired =? current)
              && (Cooldown cfg <? Time.Since now lastScale) in
  let t := trace (maybeApply cfg desired current lastScale now rp done) in
  queries t = 0%nat
  /\ mutations t = (if gate then 1 else 0)%nat
  /\ requested_counts t = (if gate then [AnyInt desired] else []).
Proof.
  intros gate t. unfold t, maybeApply. fold gate. destruct gate.
  - rewrite bind_trace, queries_app, mutations_app, requested_counts_app.
    destruct (scale_requests cfg desired rp) as (-> & -> & ->).
    destruct (value (scale cfg desired rp)); repeat split; reflexivity.
  - repeat split; reflexivity.
Qed.

Lemma cycle_requests (cfg : config) (lastScale : Z) (w : tick) :
  let target := value (fetch cfg (clock_fetch w) (fetch_reply w)) in
  let desired := decide (avgCPU target) (replicas target) cfg in
  let gate := negb (desired =? replicas target)
              && (Cooldown cfg <? Time.Since (clock_gate w) lastScale) in
  let t := trace (cycle cfg lastScale w) in
  queries t = 1%nat
  /\ mutations t = (if gate then 1 else 0)%nat
  /\ requested_counts t = (if gate then [AnyInt desired] else []).
Proof.
  intros target desired gate t. unfold t. rewrite cycle_trace.
  fold target. cbv zeta. fold desired.
  rewrite !queries_app, !mutations_app, !requested_counts_app.
  destruct (fetch_requests cfg (clock_fetch w) (fetch_reply w))
    as (-> & -> & ->).
  destruct (maybeApply_requests cfg desired (replicas target) lastScale
              (clock_gate w) (scale_reply w) (clock_done w))
    as (-> & -> & ->).
  fold gate. destruct gate; repeat split; reflexivity.
Qed.

(** X10: [scale] sends exactly one request: the mutation, to the endpoint,
    with the token of the configuration, for the service of the
    configuration and with the desired count. *)
Theorem scale_sends_desired_count (cfg : config) (desired : Z)
    (rp : reply (gmap string any)) :
  exists vars logs,
    trace (scale cfg desired rp)
    = Post endpoint (Token cfg)
        {| Query := scale_mutation; Variables := vars |} :: logs
    /\ existsb is_post logs = false
    /\ vars !! "id" = Some (AnyString (ServiceID cfg))
    /\ vars !! "count" = Some (AnyInt desired).
Proof.
  unfold scale. rewrite bind_trace.
  set (vars := <["id":=_]> _).
  destruct (doGraphQL_one_post scale_mutation vars (Token cfg)
              (∅ : gmap string any) rp) as (logs & -> & Hposts & _).
  exists vars, logs. rewrite app_nil_r.
  split; [reflexivity |]. split; [exact Hposts |]. split.
  - unfold vars. apply lookup_insert_eq.
  - unfold vars. rewrite lookup_insert_ne by discriminate.
    apply lookup_insert_eq.
Qed.

(** X11: an iteration calls the mutation exactly when the desired count
    differs from the fetched one and more than the cooldown has passed since
    [lastScale]. *)
Theorem cycle_mutation_iff (cfg : config) (lastScale : Z) (w : tick) :
  let target := value (fetch cfg (clock_fetch w) (fetch_reply w)) in
  let desired := decide (avgCPU target) (replicas target) cfg in
  mutation_invoked (trace (cycle cfg lastScale w)) = true
  <-> desired <> replicas target
      /\ Cooldown cfg < Time.Since (clock_gate w) lastScale.
Proof.
  intros target desired.
  rewrite cycle_mutation_invoked. fold target desired.
  destruct (negb (desired =? replicas target)
            && (Cooldown cfg <? Time.Since (clock_gate w) lastScale)) eqn:Hgate.
  - rewrite (proj1 (maybeApply_open _ _ _ _ _ (scale_reply w) (clock_done w)
                      Hgate)).
    apply andb_true_iff in Hgate as [Hne Hlt].
    apply negb_true_iff, Z.eqb_neq in Hne. apply Z.ltb_lt in Hlt.
    split; [intros _; split; assumption | reflexivity].
  - rewrite (maybeApply_closed _ _ _ _ _ (scale_reply w) (clock_done w) Hgate).
    split; [discriminate |]. intros [Hne Hlt].
    apply Z.eqb_neq in Hne. apply Z.ltb_lt in Hlt.
    rewrite Hne, Hlt in Hgate. discriminate.
Qed.

(** X12: every iteration sends the metric query exactly once and the
    mutation at most once. *)
Theorem cycle_request_budget (cfg : config) (lastScale : Z) (w : tick) :
  queries (trace (cycle cfg lastScale w)) = 1%nat
  /\ (mutations (trace (cycle cfg lastScale w)) <= 1)%nat.
Proof.
  destruct (cycle_requests cfg lastScale w) as (Hq & Hm & _).
  cbv zeta in Hm. split; [exact Hq |]. rewrite Hm.
  destruct (negb _ && _); lia.
Qed.

(** X13: after an iteration, [lastScale] is the clock read after the
    mutation when the mutation was called and returned no error, and is
    unchanged in every other case. *)
Theorem cycle_lastScale (cfg : config) (lastScale : Z) (w : tick) :
  let target := value (fetch cfg (clock_fetch w) (fetch_reply w)) in
  let desired := decide (avgCPU target) (replicas target) cfg in
  value (cycle cfg lastScale w)
  = if mutation_invoked (trace (cycle cfg lastScale w)) then
      match value (scale cfg desired (scale_reply w)) with
      | None => clock_done w
      | Some _ => lastScale
      end
    else lastScale.
Proof.
  intros target desired.
  rewrite cycle_value, cycle_mutation_invoked. fold target desired.
  destruct (negb (desired =? replicas target)
            && (Cooldown cfg <? Time.Since (clock_gate w) lastScale)) eqn:Hgate.
  - destruct (maybeApply_open _ _ _ _ _ (scale_reply w) (clock_done w) Hgate)
      as (-> & _ & ->). reflexivity.
  - rewrite (maybeApply_closed _ _ _ _ _ (scale_reply w) (clock_done w) Hgate).
    reflexivity.
Qed.

(** X14: the count that an iteration asks the remote for is one step away
    from the fetched count and inside the limit it moves towards: one more
    and at most [Max], or one less and at least [Min]. *)
Theorem cycle_requested_count (cfg : config) (lastScale : Z) (w : tick)
    (a : any) :
  let target := value (fetch cfg (clock_fetch w) (fetch_reply w)) in
  Int64.in_range (replicas target) ->
  Int64.in_range (Min cfg) ->
  Int64.in_range (Max cfg) ->
  In a (requested_counts (trace (cycle cfg lastScale w))) ->
  exists n,
    a = AnyInt n
    /\ ((n = replicas target + 1 /\ n <= Max cfg)
        \/ (n = replicas target - 1 /\ Min cfg <= n)).
Proof.
  intros target Hr Hmin Hmax Hin.
  destruct (cycle_requests cfg lastScale w) as (_ & _ & Hc).
  cbv zeta in Hc. fold target in Hc. rewrite Hc in Hin.
  destruct (negb (decide (avgCPU target) (replicas target) cfg
                  =? replicas target)) eqn:Hne;
    cbn [andb] in Hin; [| destruct Hin].
  destruct (_ <? _); [| destruct Hin].
  destruct Hin as [<- | []]. eexists. split; [reflexivity |].
  apply negb_true_iff, Z.eqb_neq in Hne.
  destruct (decide_cases (avgCPU target) (replicas target) cfg Hr Hmin Hmax)
    as [([_ ?] & Hd) | [(_ & [_ ?] & Hd) | (_ & _ & Hd)]];
    rewrite Hd in *; [left | right | congruence]; lia.
Qed.

Lemma cycle_requested_count_witness :
  exists n,
    AnyInt 3 = AnyInt n
    /\ ((n = 2 + 1 /\ n <= 5) \/ (n = 2 - 1 /\ 1 <= n)).
Proof.
  apply (cycle_requested_count default_config 0 failing_tick (AnyInt 3)).
  - vm_compute. split; discriminate.
  - vm_compute. split; discriminate.
  - vm_compute. split; discriminate.
  - vm_compute. left. reflexivity.
Defined.

(** X15: the cooldown separates two scalings: when an iteration has scaled
    with success, the next iteration calls the mutation only if its gate
    clock is more than the cooldown after the clock read at that success. *)
Theorem cooldown_between_scalings (cfg : config) (lastScale : Z)
    (w1 w2 : tick) :
  let target := value (fetch cfg (clock_fetch w1) (fetch_reply w1)) in
  let desired := decide (avgCPU target) (replicas target) cfg in
  Int64.in_range (Cooldown cfg) ->
  mutation_invoked (trace (cycle cfg lastScale w1)) = true ->
  value (scale cfg desired (scale_reply w1)) = None ->
  mutation_invoked
    (trace (cycle cfg (value (cycle cfg lastScale w1)) w2)) = true ->
  Cooldown cfg < clock_gate w2 - clock_done w1.
Proof.
  intros target desired Hrange Hinv1 Hok Hinv2.
  assert (Hlast : value (cycle cfg lastScale w1) = clock_done w1).
  { rewrite cycle_value. fold target desired.
    rewrite cycle_mutation_invoked in Hinv1. fold target desired in Hinv1.
    destruct (negb (desired =? replicas target)
              && (Cooldown cfg <? Time.Since (clock_gate w1) lastScale))
      eqn:Hgate.
    - destruct (maybeApply_open _ _ _ _ _ (scale_reply w1) (clock_done w1)
                  Hgate) as (_ & _ & ->). rewrite Hok. reflexivity.
    - rewrite (maybeApply_closed _ _ _ _ _ (scale_reply w1) (clock_done w1)
                 Hgate) in Hinv1. discriminate. }
  rewrite Hlast, cycle_mutation_invoked in Hinv2.
  match type of Hinv2 with
  | context [maybeApply cfg ?d ?c _ _ _ _] =>
      destruct (negb (d =? c)
                && (Cooldown cfg
                    <? Time.Since (clock_gate w2) (clock_done w1))) eqn:Hgate
  end.
  - apply andb_true_iff in Hgate as [_ Hlt]. apply Z.ltb_lt in Hlt.
    unfold Time.Since, Time.Sub in Hlt. rewrite saturate_spec in Hlt.
    unfold Time.minDuration, Time.maxDuration in Hlt.
    unfold Int64.in_range in Hrange. lia.
  - rewrite (maybeApply_closed _ _ _ _ _ (scale_reply w2) (clock_done w2)
               Hgate) in Hinv2. discriminate.
Qed.

Lemma cooldown_between_scalings_witness :
  Cooldown default_config
  < clock_gate (scaling_tick (2000 * Time.Second))
    - clock_done (scaling_tick (1000 * Time.Second)).
Proof.
  apply (cooldown_between_scalings default_config 0
           (scaling_tick (1000 * Time.Second))
           (scaling_tick (2000 * Time.Second))).
  - vm_compute. split; discriminate.
  - vm_compute. reflexivity.
  - vm_compute. reflexivity.
  - vm_compute. reflexivity.
Defined.

(** ** Iterations after a failed fetch *)

Lemma fetch_failure_value (cfg : config) (now : Z) (rp : reply gqlResponse) :
  fetch_failure rp -> value (fetch cfg now rp) = zero_snapshot.
Proof.
  intros Hfail. unfold fetch. rewrite bind_value, doGraphQL_value.
  inversion Hfail as [e He | r e Hdec Hr | r Hdec Herrs Hr].
  - reflexivity.
  - cbn [decode_err]. rewrite Hdec. reflexivity.
  - cbn [decode_err decoded]. rewrite Hdec.
    destruct (Errors (decoded r)) as [| e es]; [congruence |]. reflexivity.
Qed.

(** X16: when the fetch fails, and 0 is not above [High] and [Min] is not
    negative, the iteration calls no mutation and keeps [lastScale]. *)
Theorem failed_fetch_does_not_scale (cfg : config) (lastScale : Z) (w : tick) :
  fetch_failure (fetch_reply w) ->
  Float64.gt Float64.zero (High cfg) = false ->
  0 <= Min cfg ->
  mutation_invoked (trace (cycle cfg lastScale w)) = false
  /\ value (cycle cfg lastScale w) = lastScale.
Proof.
  intros Hfail Hhigh Hmin.
  rewrite cycle_mutation_invoked, cycle_value.
  rewrite (fetch_failure_value cfg _ _ Hfail). cbn [avgCPU replicas zero_snapshot].
  assert (Hsame : decide (S754_zero false) 0 cfg = 0).
  { unfold decide. fold Float64.zero. rewrite Hhigh. cbn [andb].
    destruct (Z.ltb_spec (Min cfg) 0) as [Hlt | _]; [lia |].
    rewrite andb_false_r. reflexivity. }
  rewrite Hsame.
  rewrite (maybeApply_closed cfg 0 0 lastScale (clock_gate w) (scale_reply w)
             (clock_done w)) by reflexivity.
  split; reflexivity.
Qed.

Lemma failed_fetch_does_not_scale_witness :
  mutation_invoked (trace (cycle default_config 0 blind_tick)) = false
  /\ value (cycle default_config 0 blind_tick) = 0.
Proof.
  apply (failed_fetch_does_not_scale default_config 0 blind_tick).
  - simpl. apply CommunicationFailure.
  - vm_compute. reflexivity.
  - simpl. lia.
Defined.

(** X17: when the fetch fails and 0 is above [High] (a negative threshold),
    with [Max] positive and the cooldown elapsed, the iteration asks the
    remote for 1 replica. *)
Theorem failed_fetch_scales_up_below_zero_threshold
    (cfg : config) (lastScale : Z) (w : tick) :
  fetch_failure (fetch_reply w) ->
  Float64.gt Float64.zero (High cfg) = true ->
  0 < Max cfg ->
  Cooldown cfg < Time.Since (clock_gate w) lastScale ->
  requested_counts (trace (cycle cfg lastScale w)) = [AnyInt 1].
Proof.
  intros Hfail Hhigh Hmax Hgate.
  destruct (cycle_requests cfg lastScale w) as (_ & _ & ->).
  rewrite (fetch_failure_value cfg _ _ Hfail). cbn [avgCPU replicas zero_snapshot].
  assert (Hup : decide (S754_zero false) 0 cfg = 1).
  { unfold decide. fold Float64.zero. rewrite Hhigh.
    apply Z.ltb_lt in Hmax. rewrite Hmax. reflexivity. }
  rewrite Hup. apply Z.ltb_lt in Hgate. rewrite Hgate. reflexivity.
Qed.

Lemma failed_fetch_scales_up_below_zero_threshold_witness :
  requested_counts
    (trace (cycle {| Token := "token"; ServiceID := "service";
                     High := Float64.of_int (-1); Low := Float64.of_int (-2);
                     Min := 1; Max := 5;
                     Cooldown := 120 * Time.Second;
                     Interval := 30 * Time.Second |} 0 blind_tick))
  = [AnyInt 1].
Proof.
  apply (failed_fetch_scales_up_below_zero_threshold _ 0 blind_tick).
  - simpl. apply CommunicationFailure.
  - vm_compute. reflexivity.
  - simpl. lia.
  - vm_compute. reflexivity.
Defined.

(** ** Runs of the loop *)

Lemma loop_requests (cfg : config) (ws : list tick) :
  forall lastScale,
    queries (trace (loop cfg lastScale ws)) = length ws
    /\ (mutations (trace (loop cfg lastScale ws)) <= length ws)%nat.
Proof.
  induction ws as [| w ws IH]; intros lastScale.
  - split; [reflexivity | cbn; lia].
  - cbn [loop]. rewrite bind_trace, queries_app, mutations_app.
    destruct (cycle_requests cfg lastScale w) as (-> & -> & _).
    destruct (IH (value (cycle cfg lastScale w))) as [-> Hm].
    split; [reflexivity |]. cbn [length].
    destruct (negb _ && _); lia.
Qed.

(** X19: a run of [main] that is given answers for [n] iterations sends the
    metric query [n] times when the configuration loads and never when it
    does not, and never sends more mutations than queries. *)
Theorem main_request_budget
    (ParseFloat : string -> float64 * option error)
    (ParseDuration : string -> Z * option error)
    (env : gmap string string) (start : Z) (ws : list tick) :
  let t := trace (main ParseFloat ParseDuration env start ws) in
  queries t
  = match loadConfig ParseFloat ParseDuration env with
    | Loaded _ => length ws
    | Fatalf _ _ => 0%nat
    end
  /\ (mutations t <= queries t)%nat.
Proof.
  intros t. unfold t, main.
  destruct (loadConfig ParseFloat ParseDuration env) as [cfg | format key].
  - rewrite bind_trace, queries_app, mutations_app.
    destruct (loop_requests cfg ws
                (Time.Add start (Int64.neg (Cooldown cfg)))) as [-> Hm].
    cbn. split; lia.
  - split; [reflexivity | cbn; lia].
Qed.

Lemma cycle_quiet (cfg : config) (lastScale : Z) (w : tick) :
  mutation_invoked (trace (cycle cfg lastScale w)) = false ->
  value (cycle cfg lastScale w) = lastScale.
Proof.
  rewrite cycle_mutation_invoked, cycle_value. cbv zeta.
  match goal with
  | |- context [maybeApply cfg ?d ?c lastScale _ _ _] =>
      destruct (negb (d =? c)
                && (Cooldown cfg <? Time.Since (clock_gate w) lastScale))
        eqn:Hgate
  end.
  - rewrite (proj1 (maybeApply_open _ _ _ _ _ (scale_reply w) (clock_done w)
                      Hgate)). discriminate.
  - rewrite (maybeApply_closed _ _ _ _ _ (scale_reply w) (clock_done w) Hgate).
    reflexivity.
Qed.

(** X20: over any number of iterations, [lastScale] is unchanged as long as
    no mutation is called. *)
Theorem loop_quiet (cfg : config) (ws : list tick) :
  forall lastScale,
    mutation_invoked (trace (loop cfg lastScale ws)) = false ->
    value (loop cfg lastScale ws) = lastScale.
Proof.
  induction ws as [| w ws IH]; intros lastScale Hquiet; [reflexivity |].
  cbn [loop] in *. rewrite bind_trace, mutation_invoked_app in Hquiet.
  apply orb_false_iff in Hquiet as [Hw Hws].
  rewrite bind_value. rewrite (cycle_quiet cfg lastScale w Hw) in *.
  apply IH, Hws.
Qed.

Lemma loop_quiet_witness :
  value (loop default_config 0 [blind_tick; blind_tick]) = 0.
Proof.
  apply (loop_quiet default_config [blind_tick; blind_tick] 0).
  vm_compute. reflexivity.
Defined.



(** ** More on the configuration *)

Ltac load_config_unfold :=
  unfold loadConfig, must, parseF, parseI, parseDur.

(** X22: when only the two required variables are set, the policy has the
    built-in defaults: thresholds 75 and 30, 1 to 5 replicas, a cooldown of
    120 seconds and a poll interval of 30 seconds. *)
Theorem loadConfig_defaults
    (ParseFloat : string -> float64 * option error)
    (ParseDuration : string -> Z * option error)
    (env : gmap string string) :
  Getenv env "RAILWAY_TOKEN" <> EmptyString ->
  Getenv env "SERVICE_ID" <> EmptyString ->
  Getenv env "CPU_HIGH" = EmptyString ->
  Getenv env "CPU_LOW" = EmptyString ->
  Getenv env "MIN_REPLICAS" = EmptyString ->
  Getenv env "MAX_REPLICAS" = EmptyString ->
  Getenv env "COOLDOWN" = EmptyString ->
  Getenv env "POLL_INTERVAL" = EmptyString ->
  loadConfig ParseFloat ParseDuration env
  = Loaded {| Token := Getenv env "RAILWAY_TOKEN";
              ServiceID := Getenv env "SERVICE_ID";
              High := Float64.of_int 75;
              Low := Float64.of_int 30;
              Min := 1;
              Max := 5;
              Cooldown := 120 * Time.Second;
              Interval := 30 * Time.Second |}.
Proof.
  intros Htoken Hservice Hhigh Hlow Hmin Hmax Hcool Hpoll.
  load_config_unfold.
  apply String.eqb_neq in Htoken, Hservice. rewrite Htoken, Hservice.
  rewrite Hhigh, Hlow, Hmin, Hmax, Hcool, Hpoll. reflexivity.
Qed.

Lemma loadConfig_defaults_witness :
  loadConfig unused_ParseFloat unused_ParseDuration minimal_env
  = Loaded {| Token := Getenv minimal_env "RAILWAY_TOKEN";
              ServiceID := Getenv minimal_env "SERVICE_ID";
              High := Float64.of_int 75;
              Low := Float64.of_int 30;
              Min := 1;
              Max := 5;
              Cooldown := 120 * Time.Second;
              Interval := 30 * Time.Second |}.
Proof.
  apply (loadConfig_defaults unused_ParseFloat unused_ParseDuration
           minimal_env); vm_compute; (reflexivity || discriminate).
Defined.

(** X23: a configuration that loads carries the token and the service
    identifier of the environment, and neither is empty; when the token is
    missing the fatal message names it, whether or not the service
    identifier is there; the service identifier is named only when the
    token is present. *)
Theorem loadConfig_required
    (ParseFloat : string -> float64 * option error)
    (ParseDuration : string -> Z * option error)
    (env : gmap string string) :
  (forall cfg,
     loadConfig ParseFloat ParseDuration env = Loaded cfg ->
     Token cfg = Getenv env "RAILWAY_TOKEN" /\ Token cfg <> EmptyString
     /\ ServiceID cfg = Getenv env "SERVICE_ID"
     /\ ServiceID cfg <> EmptyString)
  /\ (Getenv env "RAILWAY_TOKEN" = EmptyString ->
      loadConfig ParseFloat ParseDuration env
      = Fatalf "missing env %s" "RAILWAY_TOKEN")
  /\ (forall format key,
        loadConfig ParseFloat ParseDuration env = Fatalf format key ->
        key = "SERVICE_ID" ->
        Getenv env "RAILWAY_TOKEN" <> EmptyString
        /\ Getenv env "SERVICE_ID" = EmptyString).
Proof.
  load_config_unfold.
  destruct (String.eqb_spec (Getenv env "RAILWAY_TOKEN") EmptyString)
    as [Htoken | Htoken];
    destruct (String.eqb_spec (Getenv env "SERVICE_ID") EmptyString)
      as [Hservice | Hservice];
    (split; [| split]);
    try (intros cfg H; discriminate H);
    try (intros; reflexivity);
    try (intros; contradiction);
    try (intros format key H Hkey; injection H as _ <-; discriminate Hkey);
    try (intros format key H Hkey; discriminate H).
  - intros format key _ _. split; assumption.
  - intros cfg H. injection H as <-. cbn [Token ServiceID].
    repeat split; assumption.
Qed.

Lemma loadConfig_required_witness :
  Token default_config = Getenv minimal_env "RAILWAY_TOKEN"
  /\ Token default_config <> EmptyString
  /\ ServiceID default_config = Getenv minimal_env "SERVICE_ID"
  /\ ServiceID default_config <> EmptyString.
Proof.
  apply (proj1 (loadConfig_required unused_ParseFloat unused_ParseDuration
                  minimal_env) default_config).
  vm_compute. reflexivity.
Defined.

(** X24: [loadConfig] depends on the environment only through its eight
    variables: two environments that agree on them load the same
    configuration or fail the same way. *)
Theorem loadConfig_reads_its_keys
    (ParseFloat : string -> float64 * option error)
    (ParseDuration : string -> Z * option error)
    (env1 env2 : gmap string string) :
  (forall key, In key config_keys -> Getenv env1 key = Getenv env2 key) ->
  loadConfig ParseFloat ParseDuration env1
  = loadConfig ParseFloat ParseDuration env2.
Proof.
  intros Hagree. load_config_unfold.
  rewrite !(Hagree _) by (unfold config_keys; cbn [In]; tauto).
  reflexivity.
Qed.

Lemma loadConfig_reads_its_keys_witness :
  loadConfig unused_ParseFloat unused_ParseDuration
    (<["HOME" := "/root"]> minimal_env)
  = loadConfig unused_ParseFloat unused_ParseDuration minimal_env.
Proof.
  apply (loadConfig_reads_its_keys unused_ParseFloat unused_ParseDuration
           (<["HOME" := "/root"]> minimal_env) minimal_env).
  intros key Hin. unfold config_keys in Hin. cbn [In] in Hin.
  repeat (destruct Hin as [<- | Hin]; [vm_compute; reflexivity |]).
  destruct Hin.
Defined.

(** X25: a variable that is set to the empty string counts as unset. *)
Theorem loadConfig_empty_is_unset
    (ParseFloat : string -> float64 * option error)
    (ParseDuration : string -> Z * option error)
    (env : gmap string string) (key : string) :
  loadConfig ParseFloat ParseDuration (<[key := EmptyString]> env)
  = loadConfig ParseFloat ParseDuration (delete key env).
Proof.
  assert (Hsame : forall k,
            Getenv (<[key := EmptyString]> env) k = Getenv (delete key env) k).
  { intros k. unfold Getenv. destruct (String.eqb_spec key k) as [-> | Hne].
    - rewrite lookup_insert_eq, lookup_delete_eq. reflexivity.
    - rewrite lookup_insert_ne, lookup_delete_ne by assumption. reflexivity. }
  load_config_unfold. rewrite !Hsame. reflexivity.
Qed.

(** ** Hysteresis and the boundary of the gate *)

Lemma lt_asym (x y : float64) :
  Float64.lt x y = true -> Float64.lt y x = false.
Proof.
  unfold Float64.lt, SFltb. rewrite (compare_swap x y).
  destruct (SFcompare x y) as [[ | | ] | ]; simpl; congruence.
Qed.

(** With [Low <= High], a utilization above [High] is not below [Low], and
    one below [Low] is not above [High]. *)
Lemma thresholds_exclusive (cpu : float64) (cfg : config) :
  Float64.le (Low cfg) (High cfg) = true ->
  (Float64.gt cpu (High cfg) = true -> Float64.lt cpu (Low cfg) = false)
  /\ (Float64.lt cpu (Low cfg) = true -> Float64.gt cpu (High cfg) = false).
Proof.
  intros Hle. split.
  - intros Hgt. destruct (Float64.lt cpu (Low cfg)) eqn:Hlow; [| reflexivity].
    pose proof (lt_le_trans _ _ _ Hlow Hle) as Hlt.
    apply lt_asym in Hlt. unfold Float64.gt, Float64.lt in *. congruence.
  - intros Hlow. pose proof (lt_le_trans _ _ _ Hlow Hle) as Hlt.
    apply lt_asym in Hlt. exact Hlt.
Qed.

(** X26: with [Low <= High] the direction never reverses at a given
    utilization: above [High] no count is ever lowered, below [Low] no count
    is ever raised. *)
Theorem decide_no_reversal (cpu : float64) (replicas : Z) (cfg : config) :
  Float64.le (Low cfg) (High cfg) = true ->
  Int64.in_range replicas ->
  Int64.in_range (Min cfg) ->
  Int64.in_range (Max cfg) ->
  (Float64.gt cpu (High cfg) = true -> replicas <= decide cpu replicas cfg)
  /\ (Float64.lt cpu (Low cfg) = true -> decide cpu replicas cfg <= replicas).
Proof.
  intros Hle Hr Hmin Hmax.
  destruct (thresholds_exclusive cpu cfg Hle) as [Hup Hdown].
  split; intros H;
    destruct (decide_cases cpu replicas cfg Hr Hmin Hmax)
      as [([Hgt _] & ->) | [(_ & [Hlow _] & ->) | (_ & _ & ->)]];
    try lia.
  - rewrite (Hup H) in Hlow. discriminate.
  - rewrite (Hdown H) in Hgt. discriminate.
Qed.

Lemma decide_no_reversal_witness :
  (Float64.gt (Float64.of_int 80) (High default_config) = true ->
   4 <= decide (Float64.of_int 80) 4 default_config)
  /\ (Float64.lt (Float64.of_int 80) (Low default_config) = true ->
      decide (Float64.of_int 80) 4 default_config <= 4).
Proof.
  apply (decide_no_reversal (Float64.of_int 80) 4 default_config);
    try (simpl; int64_range).
  vm_compute. reflexivity.
Defined.

(** X27: under a sustained utilization above [High], with [Low <= High],
    repeated decisions raise the count by one per step up to [Max] and then
    hold it there. *)
Theorem decide_climbs_to_max (cpu : float64) (replicas : Z) (cfg : config)
    (n : nat) :
  Float64.le (Low cfg) (High cfg) = true ->
  Float64.gt cpu (High cfg) = true ->
  Int64.in_range replicas ->
  Int64.in_range (Max cfg) ->
  replicas <= Max cfg ->
  Nat.iter n (fun r => decide cpu r cfg) replicas
  = Z.min (replicas + Z.of_nat n) (Max cfg).
Proof.
  intros Hle Hgt Hr Hmax Hband.
  destruct (thresholds_exclusive cpu cfg Hle) as [Hup _].
  induction n as [| n IH].
  - cbn. lia.
  - rewrite Nat.iter_succ, IH. clear IH.
    set (v := Z.min (replicas + Z.of_nat n) (Max cfg)).
    assert (Hv : Int64.in_range v) by (unfold v; int64_range).
    unfold decide. rewrite Hgt, (Hup Hgt). cbn [andb].
    destruct (Z.ltb_spec v (Max cfg)) as [Hlt | Hge].
    + rewrite (add_one_below v (Max cfg)) by assumption. unfold v in *. lia.
    + unfold v in *. lia.
Qed.

Lemma decide_climbs_to_max_witness :
  Nat.iter 10 (fun r => decide (Float64.of_int 80) r default_config) 2
  = Z.min (2 + Z.of_nat 10) 5.
Proof.
  apply (decide_climbs_to_max (Float64.of_int 80) 2 default_config 10);
    try (simpl; int64_range); vm_compute; reflexivity.
Defined.

(** X28: under a sustained utilization below [Low], with [Low <= High],
    repeated decisions lower the count by one per step down to [Min] and
    then hold it there. *)
Theorem decide_descends_to_min (cpu : float64) (replicas : Z) (cfg : config)
    (n : nat) :
  Float64.le (Low cfg) (High cfg) = true ->
  Float64.lt cpu (Low cfg) = true ->
  Int64.in_range replicas ->
  Int64.in_range (Min cfg) ->
  Min cfg <= replicas ->
  Nat.iter n (fun r => decide cpu r cfg) replicas
  = Z.max (replicas - Z.of_nat n) (Min cfg).
Proof.
  intros Hle Hlow Hr Hmin Hband.
  destruct (thresholds_exclusive cpu cfg Hle) as [_ Hdown].
  induction n as [| n IH].
  - cbn. lia.
  - rewrite Nat.iter_succ, IH. clear IH.
    set (v := Z.max (replicas - Z.of_nat n) (Min cfg)).
    assert (Hv : Int64.in_range v) by (unfold v; int64_range).
    unfold decide. rewrite Hlow, (Hdown Hlow). cbn [andb].
    destruct (Z.ltb_spec (Min cfg) v) as [Hlt | Hge].
    + rewrite (sub_one_above v (Min cfg)) by assumption. unfold v in *. lia.
    + unfold v in *. lia.
Qed.

Lemma decide_descends_to_min_witness :
  Nat.iter 10 (fun r => decide (Float64.of_int 10) r default_config) 4
  = Z.max (4 - Z.of_nat 10) 1.
Proof.
  apply (decide_descends_to_min (Float64.of_int 10) 4 default_config 10);
    try (simpl; int64_range); vm_compute; reflexivity.
Defined.

(** X29: the gate is strict: exactly one cooldown after [lastScale] the
    actuation step still calls no mutation and keeps the timestamp, and one
    nanosecond later it calls it, for a cooldown below the largest
    duration. *)
Theorem gate_is_strict (cfg : config) (desired current t0 : Z)
    (rp : reply (gmap string any)) (done : Z) :
  Int64.in_range (Cooldown cfg) ->
  Cooldown cfg < Time.maxDuration ->
  desired <> current ->
  maybeApply cfg desired current t0 (t0 + Cooldown cfg) rp done = ret t0
  /\ mutation_invoked
       (trace (maybeApply cfg desired current t0 (t0 + Cooldown cfg + 1)
                 rp done)) = true.
Proof.
  intros Hrange Hmax Hne.
  assert (Hd : negb (desired =? current) = true).
  { apply negb_true_iff, Z.eqb_neq, Hne. }
  split.
  - apply maybeApply_closed. rewrite Hd. cbn [andb].
    apply Z.ltb_ge. unfold Time.Since, Time.Sub. rewrite saturate_spec.
    unfold Time.minDuration, Time.maxDuration.
    unfold Int64.in_range in Hrange. lia.
  - apply maybeApply_open. rewrite Hd. cbn [andb].
    apply Z.ltb_lt. unfold Time.Since, Time.Sub. rewrite saturate_spec.
    unfold Time.minDuration, Time.maxDuration in *.
    unfold Int64.in_range in Hrange. lia.
Qed.

Lemma gate_is_strict_witness :
  maybeApply default_config 3 2 1000 (1000 + Cooldown default_config)
    (DoFailed (ErrNet "timeout")) 0 = ret 1000
  /\ mutation_invoked
       (trace (maybeApply default_config 3 2 1000
                 (1000 + Cooldown default_config + 1)
                 (DoFailed (ErrNet "timeout")) 0)) = true.
Proof.
  apply (gate_is_strict default_config 3 2 1000 (DoFailed (ErrNet "timeout")) 0).
  - vm_compute. split; discriminate.
  - vm_compute. reflexivity.
  - discriminate.
Defined.
